(** * EWC trainers for continual graph classification

    A shallow embedding of [begin/algorithms/ewc/graphs.py]: the penalty of
    [afterInference], the Fisher pass of [processAfterTraining] and the
    life cycle of the training states, for the four trainer classes of the
    file, together with the properties its specification states about them. *)

From Stdlib Require Import QArith Qcanon.
From Stdlib Require SpecFloat.
From stdpp Require Import gmap strings list fin_maps numbers.

Open Scope Qc_scope.

(** ** Numbers

    Tensor entries that reach the trainer from outside (parameter values,
    gradients, the task loss, the hyperparameter [lamb]) are exact rationals:
    rounding and overflow of the machine floats are not part of this model.
    The trainer itself leaves the rationals in one place, the division of the
    Fisher accumulators by [total_num_items], which on float tensors raises
    nothing when the divisor is zero and yields an infinity or a NaN.  Values
    computed by the trainer therefore range over [xscalar].  What a pass
    stores when an operation rounds or overflows, or when a gradient holds a
    NaN, is the subject of the binary32 embedding of the Fisher accumulator
    further down. *)

Inductive xscalar : Type :=
  | Fin (q : Qc)
  | PInf
  | NInf
  | NaN.

#[global] Instance xscalar_eq_dec : EqDecision xscalar.
Proof. solve_decision. Defined.

#[global] Instance Qc_inhabited : Inhabited Qc := populate 0.
#[global] Instance xscalar_inhabited : Inhabited xscalar := populate (Fin 0).

(** The sign of a rational, used by the products with an infinity. *)
Inductive sign : Type := Neg | Zero | Pos.

Definition sign_of (q : Qc) : sign :=
  if decide (q = 0) then Zero else if decide (0 < q) then Pos else Neg.

(** [a + b] on floats without rounding. *)
Definition xadd (a b : xscalar) : xscalar :=
  match a, b with
  | NaN, _ | _, NaN => NaN
  | Fin x, Fin y => Fin (x + y)
  | PInf, NInf | NInf, PInf => NaN
  | PInf, _ | _, PInf => PInf
  | NInf, _ | _, NInf => NInf
  end.

(** An infinity times a finite factor of the given sign. *)
Definition inf_times (positive : bool) (s : sign) : xscalar :=
  match s with
  | Zero => NaN
  | Pos => if positive then PInf else NInf
  | Neg => if positive then NInf else PInf
  end.

(** [a * b] on floats without rounding. *)
Definition xmul (a b : xscalar) : xscalar :=
  match a, b with
  | NaN, _ | _, NaN => NaN
  | Fin x, Fin y => Fin (x * y)
  | PInf, Fin y => inf_times true (sign_of y)
  | NInf, Fin y => inf_times false (sign_of y)
  | Fin x, PInf => inf_times true (sign_of x)
  | Fin x, NInf => inf_times false (sign_of x)
  | PInf, PInf | NInf, NInf => PInf
  | PInf, NInf | NInf, PInf => NInf
  end.

(** The count of items of a batch, or of all batches, as a rational. *)
Definition of_count (n : nat) : Qc := Qc_of_Z (Z.of_nat n).

(** [a / n] for an item count [n], the only division the trainer performs.
    The count is a non-negative integer, so a zero divisor is [+0.0]:
    a finite non-zero dividend gives the infinity of its sign, and [0/0] is
    NaN. *)
Definition xdiv_count (a : xscalar) (n : nat) : xscalar :=
  match a with
  | Fin x =>
      match n with
      | O => match sign_of x with Zero => NaN | Pos => PInf | Neg => NInf end
      | S _ => Fin (x / of_count n)
      end
  | PInf => PInf
  | NInf => NInf
  | NaN => NaN
  end.

(** ** Tensors

    A tensor is the list of its entries in storage order; its shape is
    represented by the number of entries.  Operands of an elementwise
    operation must have the same shape; broadcasting between different
    shapes is not modelled and counts as a shape error. *)

Abbreviation tensor := (list Qc).
Abbreviation xtensor := (list xscalar).

(** What a call can raise. *)
Inductive exn : Type :=
  | KeyError (name : string)
  | ShapeError
  | External (code : nat).

#[global] Instance exn_eq_dec : EqDecision exn.
Proof. solve_decision. Defined.

Inductive outcome (A : Type) : Type :=
  | Ok (a : A)
  | Raise (e : exn).
Arguments Ok {A} a.
Arguments Raise {A} e.

#[global] Instance outcome_eq_dec {A : Type} `{EqDecision A} : EqDecision (outcome A).
Proof. solve_decision. Defined.

Definition elementwise {A B C : Type} (f : A → B → C)
    (a : list A) (b : list B) : outcome (list C) :=
  if decide (length a = length b) then Ok (zip_with f a b) else Raise ShapeError.

(** [torch.zeros_like(p)] *)
Definition zeros_like (p : tensor) : tensor := replicate (length p) 0.

(** [t ** 2] *)
Definition tsquare (t : tensor) : tensor := (λ x, x * x) <$> t.

(** [t * n] for an integer [n] *)
Definition tscale_count (t : tensor) (n : nat) : tensor :=
  (λ x, x * of_count n) <$> t.

(** [a - b] *)
Definition tsub (a b : tensor) : outcome tensor := elementwise Qcminus a b.

(** A tensor of rationals seen as a computed tensor. *)
Definition embed (t : tensor) : xtensor := Fin <$> t.

(** [a + b] and [a * b] on computed tensors *)
Definition xtadd (a b : xtensor) : outcome xtensor := elementwise xadd a b.
Definition xtmul (a b : xtensor) : outcome xtensor := elementwise xmul a b.

(** [c * t] for a Python float [c] *)
Definition xtscale (c : Qc) (t : xtensor) : xtensor := xmul (Fin c) <$> t.

(** [t / n] for an integer [n] *)
Definition xtdiv_count (t : xtensor) (n : nat) : xtensor :=
  (λ x, xdiv_count x n) <$> t.

(** [t.sum()] *)
Definition xtsum (t : xtensor) : xscalar := foldl xadd (Fin 0) t.

(** ** Calls with effects

    A call runs on a state [S] and ends with a value or an exception.  The
    state comes back in both cases: what a call changed before it raised
    stays changed, as in Python. *)

Definition M (S A : Type) : Type := S → outcome A * S.

Definition ret {S A : Type} (a : A) : M S A := λ s, (Ok a, s).

Definition raise {S A : Type} (e : exn) : M S A := λ s, (Raise e, s).

Definition bind {S A B : Type} (c : M S A) (k : A → M S B) : M S B :=
  λ s, match c s with
       | (Ok a, s') => k a s'
       | (Raise e, s') => (Raise e, s')
       end.

Definition get {S : Type} : M S S := λ s, (Ok s, s).

Definition modify {S : Type} (f : S → S) : M S unit := λ s, (Ok tt, f s).

(** A value or an exception computed without touching the state. *)
Definition lift_outcome {S A : Type} (o : outcome A) : M S A := λ s, (o, s).

Declare Scope ewc_scope.
Delimit Scope ewc_scope with ewc.
Notation "'let*' x ':=' c 'in' k" := (bind c (λ x, k))
  (at level 10, x name, c at level 100, k at level 200,
   format "'[v' 'let*'  x  ':='  c  'in' '/' k ']'") : ewc_scope.
Notation "'let*' ' p ':=' c 'in' k" := (bind c (λ p, k))
  (at level 10, p pattern, c at level 100, k at level 200,
   format "'[v' 'let*'  ' p  ':='  c  'in' '/' k ']'") : ewc_scope.
Notation "'run' c 'then' k" := (bind c (λ _, k))
  (at level 10, c at level 100, k at level 200,
   format "'[v' 'run'  c  'then' '/' k ']'") : ewc_scope.
Open Scope ewc_scope.

(** [for x in xs: acc = body(acc, x)] *)
Fixpoint for_each {S A B : Type} (xs : list B) (body : A → B → M S A) (acc : A)
    : M S A :=
  match xs with
  | [] => ret acc
  | x :: xs' => let* acc' := body acc x in for_each xs' body acc'
  end.

(** The same loop for a body without effects on the state. *)
Fixpoint fold_outcome {A B : Type} (body : A → B → outcome A) (xs : list B) (acc : A)
    : outcome A :=
  match xs with
  | [] => Ok acc
  | x :: xs' =>
      match body acc x with
      | Ok acc' => fold_outcome body xs' acc'
      | Raise e => Raise e
      end
  end.

(** [d[name]] *)
Definition getitem {V : Type} (d : gmap string V) (name : string) : outcome V :=
  match d !! name with
  | Some v => Ok v
  | None => Raise (KeyError name)
  end.

(** ** Data model *)

(** A model parameter [p] as the trainer reads it: [p.data], and [p.grad],
    which is [None] until a backward pass reaches the parameter. *)
Record param : Type := {
  data : tensor;
  grad : option tensor
}.

(** [training_states]: the dictionary with the keys ['fishers'] and
    ['params'], one dictionary per completed task in each list.  A snapshot
    holds copies of parameter values; a Fisher estimate holds values the
    trainer computed.  The tensors of both are created by the pass that
    appends them ([zeros_like], [clone]) and nothing else refers to them. *)
Record TrainingStates : Type := {
  fishers : list (gmap string xtensor);
  params : list (gmap string tensor)
}.

(** What [inference] returns: ['preds'] and ['loss']. *)
Record Results (P : Type) : Type := {
  preds : P;
  loss : Qc
}.
Arguments preds {P} _.
Arguments loss {P} _.

(** What [afterInference] returns: ['_num_items'], ['loss'] and ['acc']. *)
Record StepInfo (A : Type) : Type := {
  _num_items : nat;
  step_loss : xscalar;
  acc : A
}.
Arguments _num_items {A} _.
Arguments step_loss {A} _.
Arguments acc {A} _.

(** ** Collaborators

    Everything the methods of this file call and do not define: the model
    and the optimizer they are handed, the autograd engine, and what the
    trainer inherits from [GCTrainer] or is given at construction.  The
    state of all of these (parameter tensors and their gradients, optimizer
    buffers, the loader, the further keys the base trainer keeps in the
    training states) is the type [state]; the two lists of this file are not
    part of it, and a collaborator that is passed [training_states] reads
    them.  The model and the optimizer of a call are the ones of [self]. *)
Record GCTrainer : Type := {
  state : Type;
  batch : Type;
  dataset : Type;
  predictions : Type;
  formatted : Type;
  metric : Type;
  (** [self.lamb] *)
  lamb : Qc;
  (** [model.named_parameters()], in the order of the iteration *)
  named_parameters : state → list (string * param);
  (** [model.zero_grad()] *)
  zero_grad : M state unit;
  (** [t.backward()] for a scalar tensor of value [t] *)
  backward : xscalar → M state unit;
  (** [optimizer.step()] *)
  step : M state unit;
  (** [self.inference(model, _curr_batch, training_states)] *)
  inference : batch → TrainingStates → M state (Results predictions);
  (** [self.prepareLoader(curr_dataset, curr_training_states)[0]], iterated *)
  prepareLoader : dataset → TrainingStates → M state (list batch);
  (** [self.predictionFormat(results)] *)
  predictionFormat : Results predictions → M state formatted;
  (** [self.eval_fn(formatted, _curr_batch[1].to(self.device))] *)
  eval_fn : formatted → batch → M state metric;
  (** [super().processAfterTraining(...)] *)
  base_processAfterTraining : nat → dataset → TrainingStates → M state unit;
  (** [_curr_batch[1].shape[0]] *)
  num_items : batch → nat;
  (** [results['preds'].shape[0]] *)
  preds_items : predictions → nat
}.

(** [__init__]: [self.lamb = kwargs['lamb'] if 'lamb' in kwargs else 10000.] *)
Definition init_lamb (kwargs : gmap string Qc) : Qc :=
  match kwargs !! "lamb" with
  | Some l => l
  | None => Qc_of_Z 10000
  end.

(** The state a method runs on: the collaborators' state and the training
    states it is handed. *)
Record world (T : Type) : Type := {
  ext : T;
  training_states : TrainingStates
}.
Arguments ext {T} _.
Arguments training_states {T} _.

(** A collaborator's call seen from a method: it runs on [ext]. *)
Definition call {T A : Type} (c : M T A) : M (world T) A :=
  λ w, let (r, t) := c (ext w) in
       (r, {| ext := t; training_states := training_states w |}).

(** [training_states['fishers'].append(f)] and
    [training_states['params'].append(p)] *)
Definition append_fishers {T : Type} (f : gmap string xtensor) : M (world T) unit :=
  modify (λ w, {| ext := ext w;
                  training_states :=
                    {| fishers := fishers (training_states w) ++ [f];
                       params := params (training_states w) |} |}).

Definition append_params {T : Type} (p : gmap string tensor) : M (world T) unit :=
  modify (λ w, {| ext := ext w;
                  training_states :=
                    {| fishers := fishers (training_states w);
                       params := params (training_states w) ++ [p] |} |}).

(** Sequencing of steps that only compute a value or raise. *)
Definition and_then {A B : Type} (o : outcome A) (k : A → outcome B) : outcome B :=
  match o with
  | Ok a => k a
  | Raise e => Raise e
  end.

Notation "'let?' x ':=' o 'in' k" := (and_then o (λ x, k))
  (at level 10, x name, o at level 100, k at level 200,
   format "'[v' 'let?'  x  ':='  o  'in' '/' k ']'") : ewc_scope.

(** [{name: f(p) for name, p in named_parameters}]: a later binding of a
    name replaces an earlier one. *)
Definition dict_of {V : Type} (f : param → V) (named : list (string * param))
    : gmap string V :=
  foldl (λ d '(name, p), <[name := f p]> d) ∅ named.

(** ** The forward pass of the task-incremental class

    What [GCTaskILEWCTrainer.inference] calls and does not define: how a
    batch unpacks into graphs, labels and masks, the feature dictionaries of
    a graph, the model as a callable, and [self.loss_fn].  Moving a tensor to
    [self.device] does not change its value and is not represented. *)
Record Forward (self : GCTrainer) : Type := {
  graph : Type;
  label_tensor : Type;
  mask_tensor : Type;
  feature : Type;
  (** [graphs, labels, masks = _curr_batch] *)
  unpack : batch self → graph * label_tensor * mask_tensor;
  (** [graphs.ndata] and [graphs.edata] *)
  ndata : graph → gmap string feature;
  edata : graph → gmap string feature;
  (** [model(graphs, feat, edge_attr = ..., edge_weight = ..., task_masks = ...)] *)
  model_call : graph → option feature → option feature → option feature →
               mask_tensor → M (state self) (predictions self);
  (** [self.loss_fn(preds, labels)] *)
  loss_fn : predictions self → label_tensor → M (state self) Qc
}.
Arguments graph {self} _.
Arguments label_tensor {self} _.
Arguments mask_tensor {self} _.
Arguments feature {self} _.
Arguments unpack {self} _ _.
Arguments ndata {self} _ _.
Arguments edata {self} _ _.
Arguments model_call {self} _ _ _ _ _ _.
Arguments loss_fn {self} _ _ _.

(** ** The trainers

    The task-incremental class overrides [inference] to hand the task masks
    of the batch to the model; the other classes inherit it from [GCTrainer].
    Both reach the methods below through [self.inference]. *)

Module GCTaskILEWCTrainer.

(** The loop of [afterInference] that computes [loss_reg] (lines 53-58), on
    the parameters the model names at the time of the call.  [p] stands for
    the value of the parameter. *)
Definition loss_reg (self : GCTrainer) (named : list (string * param))
    (training_states : TrainingStates) : outcome xscalar :=
  fold_outcome
    (λ loss_reg '(_param, _fisher),
       fold_outcome
         (λ loss_reg '(name, p),
            let? f := getitem _fisher name in
            let l := xtscale (lamb self) f in
            let? snapshot := getitem _param name in
            let? d := tsub (data p) snapshot in
            let? l := xtmul l (embed (tsquare d)) in
            Ok (xadd loss_reg (xtsum l)))
         named loss_reg)
    (zip (params training_states) (fishers training_states))
    (Fin 0).

(** [afterInference] (lines 53-64). *)
Definition afterInference (self : GCTrainer) (results : Results (predictions self))
    (_curr_batch : batch self) : M (world (state self)) (StepInfo (metric self)) :=
  let* w := get in
  let* loss_reg :=
    lift_outcome (loss_reg self (named_parameters self (ext w)) (training_states w)) in
  let total_loss := xadd (Fin (loss results)) loss_reg in
  run call (backward self total_loss) then
  run call (step self) then
  let* formatted := call (predictionFormat self results) in
  let* acc := call (eval_fn self formatted _curr_batch) in
  ret {| _num_items := preds_items self (preds results);
         step_loss := total_loss;
         acc := acc |}.

(** [initTrainingStates] (lines 66-67). *)
Definition initTrainingStates : TrainingStates :=
  {| fishers := []; params := [] |}.

(** The loop over the parameters inside the loop over the batches (lines
    94-96).  [p.data.clone().detach()] and [p.grad.data.clone().detach()] are
    copies: what the dictionaries hold does not follow the parameter when it
    is updated in place later on, so they hold values. *)
Definition accumulate (curr_num_items : nat) (named : list (string * param))
    (acc : gmap string tensor * gmap string xtensor)
    : outcome (gmap string tensor * gmap string xtensor) :=
  fold_outcome
    (λ '(params, fishers) '(name, p),
       let params := <[name := data p]> params in
       match grad p with
       | Some g =>
           let? f := getitem fishers name in
           let? f := xtadd f (embed (tscale_count (tsquare g) curr_num_items)) in
           Ok (params, <[name := f]> fishers)
       | None => Ok (params, fishers)
       end)
    named acc.

(** The loop that divides every Fisher accumulator by the item count (lines
    98-99). *)
Definition normalize (total_num_items : nat) (named : list (string * param))
    (fishers : gmap string xtensor) : outcome (gmap string xtensor) :=
  fold_outcome
    (λ fishers '(name, _),
       let? f := getitem fishers name in
       Ok (<[name := xtdiv_count f total_num_items]> fishers))
    named fishers.

(** One turn of the loop over the batches of the loader (lines 88-96). *)
Definition estimate_batch (self : GCTrainer)
    (acc : gmap string tensor * gmap string xtensor * nat) (_curr_batch : batch self)
    : M (world (state self)) (gmap string tensor * gmap string xtensor * nat) :=
  let '(params, fishers, total_num_items) := acc in
  run call (zero_grad self) then
  let* w := get in
  let* curr_results := call (inference self _curr_batch (training_states w)) in
  run call (backward self (Fin (loss curr_results))) then
  let curr_num_items := num_items self _curr_batch in
  let total_num_items := (total_num_items + curr_num_items)%nat in
  let* w := get in
  let* '(params, fishers) :=
    lift_outcome (accumulate curr_num_items (named_parameters self (ext w))
                    (params, fishers)) in
  ret (params, fishers, total_num_items).

(** [processAfterTraining] (lines 82-102).  The two dictionaries are local
    until the two appends at the end. *)
Definition processAfterTraining (self : GCTrainer) (task_id : nat)
    (curr_dataset : dataset self) : M (world (state self)) unit :=
  let* w := get in
  run call (base_processAfterTraining self task_id curr_dataset (training_states w)) then
  let* w := get in
  let params := dict_of (λ p, zeros_like (data p)) (named_parameters self (ext w)) in
  let fishers := dict_of (λ p, embed (zeros_like (data p))) (named_parameters self (ext w)) in
  let* train_loader := call (prepareLoader self curr_dataset (training_states w)) in
  let total_num_items := 0%nat in
  let* '(params, fishers, total_num_items) :=
    for_each train_loader (estimate_batch self) (params, fishers, total_num_items) in
  let* w := get in
  let* fishers :=
    lift_outcome (normalize total_num_items (named_parameters self (ext w)) fishers) in
  run append_fishers fishers then
  append_params params.

End GCTaskILEWCTrainer.

Module GCClassILEWCTrainer.

(** The loop of [afterInference] that computes [loss_reg] (lines 129-134), on
    the parameters the model names at the time of the call.  [p] stands for
    the value of the parameter. *)
Definition loss_reg (self : GCTrainer) (named : list (string * param))
    (training_states : TrainingStates) : outcome xscalar :=
  fold_outcome
    (λ loss_reg '(_param, _fisher),
       fold_outcome
         (λ loss_reg '(name, p),
            let? f := getitem _fisher name in
            let l := xtscale (lamb self) f in
            let? snapshot := getitem _param name in
            let? d := tsub (data p) snapshot in
            let? l := xtmul l (embed (tsquare d)) in
            Ok (xadd loss_reg (xtsum l)))
         named loss_reg)
    (zip (params training_states) (fishers training_states))
    (Fin 0).

(** [afterInference] (lines 129-140). *)
Definition afterInference (self : GCTrainer) (results : Results (predictions self))
    (_curr_batch : batch self) : M (world (state self)) (StepInfo (metric self)) :=
  let* w := get in
  let* loss_reg :=
    lift_outcome (loss_reg self (named_parameters self (ext w)) (training_states w)) in
  let total_loss := xadd (Fin (loss results)) loss_reg in
  run call (backward self total_loss) then
  run call (step self) then
  let* formatted := call (predictionFormat self results) in
  let* acc := call (eval_fn self formatted _curr_batch) in
  ret {| _num_items := preds_items self (preds results);
         step_loss := total_loss;
         acc := acc |}.

(** [initTrainingStates] (lines 142-143). *)
Definition initTrainingStates : TrainingStates :=
  {| fishers := []; params := [] |}.

(** The loop over the parameters inside the loop over the batches (lines
    170-172).  [p.data.clone().detach()] and [p.grad.data.clone().detach()] are
    copies: what the dictionaries hold does not follow the parameter when it
    is updated in place later on, so they hold values. *)
Definition accumulate (curr_num_items : nat) (named : list (string * param))
    (acc : gmap string tensor * gmap string xtensor)
    : outcome (gmap string tensor * gmap string xtensor) :=
  fold_outcome
    (λ '(params, fishers) '(name, p),
       let params := <[name := data p]> params in
       match grad p with
       | Some g =>
           let? f := getitem fishers name in
           let? f := xtadd f (embed (tscale_count (tsquare g) curr_num_items)) in
           Ok (params, <[name := f]> fishers)
       | None => Ok (params, fishers)
       end)
    named acc.

(** The loop that divides every Fisher accumulator by the item count (lines
    174-175). *)
Definition normalize (total_num_items : nat) (named : list (string * param))
    (fishers : gmap string xtensor) : outcome (gmap string xtensor) :=
  fold_outcome
    (λ fishers '(name, _),
       let? f := getitem fishers name in
       Ok (<[name := xtdiv_count f total_num_items]> fishers))
    named fishers.

(** One turn of the loop over the batches of the loader (lines 164-172). *)
Definition estimate_batch (self : GCTrainer)
    (acc : gmap string tensor * gmap string xtensor * nat) (_curr_batch : batch self)
    : M (world (state self)) (gmap string tensor * gmap string xtensor * nat) :=
  let '(params, fishers, total_num_items) := acc in
  run call (zero_grad self) then
  let* w := get in
  let* curr_results := call (inference self _curr_batch (training_states w)) in
  run call (backward self (Fin (loss curr_results))) then
  let curr_num_items := num_items self _curr_batch in
  let total_num_items := (total_num_items + curr_num_items)%nat in
  let* w := get in
  let* '(params, fishers) :=
    lift_outcome (accumulate curr_num_items (named_parameters self (ext w))
                    (params, fishers)) in
  ret (params, fishers, total_num_items).

(** [processAfterTraining] (lines 158-178).  The two dictionaries are local
    until the two appends at the end. *)
Definition processAfterTraining (self : GCTrainer) (task_id : nat)
    (curr_dataset : dataset self) : M (world (state self)) unit :=
  let* w := get in
  run call (base_processAfterTraining self task_id curr_dataset (training_states w)) then
  let* w := get in
  let params := dict_of (λ p, zeros_like (data p)) (named_parameters self (ext w)) in
  let fishers := dict_of (λ p, embed (zeros_like (data p))) (named_parameters self (ext w)) in
  let* train_loader := call (prepareLoader self curr_dataset (training_states w)) in
  let total_num_items := 0%nat in
  let* '(params, fishers, total_num_items) :=
    for_each train_loader (estimate_batch self) (params, fishers, total_num_items) in
  let* w := get in
  let* fishers :=
    lift_outcome (normalize total_num_items (named_parameters self (ext w)) fishers) in
  run append_fishers fishers then
  append_params params.

End GCClassILEWCTrainer.

(** [class GCDomainILEWCTrainer(GCClassILEWCTrainer): pass] *)
Module GCDomainILEWCTrainer.
Definition afterInference := GCClassILEWCTrainer.afterInference.
Definition initTrainingStates := GCClassILEWCTrainer.initTrainingStates.
Definition processAfterTraining := GCClassILEWCTrainer.processAfterTraining.
End GCDomainILEWCTrainer.

(** [class GCTimeILEWCTrainer(GCClassILEWCTrainer): pass] *)
Module GCTimeILEWCTrainer.
Definition afterInference := GCClassILEWCTrainer.afterInference.
Definition initTrainingStates := GCClassILEWCTrainer.initTrainingStates.
Definition processAfterTraining := GCClassILEWCTrainer.processAfterTraining.
End GCTimeILEWCTrainer.

(** ** Notions of the specification *)

(** The sum of [f] over a list, [Fin 0] for the empty list. *)
Definition xsum {A : Type} (f : A → xscalar) (l : list A) : xscalar :=
  foldr (λ a s, xadd (f a) s) (Fin 0) l.
#[global] Arguments xsum : simpl never.

(** [lambda * fisher * (current - snapshot) ** 2] for one tensor element. *)
Definition penalty_term (lambda : Qc) (fisher : xscalar) (current snapshot : Qc)
    : xscalar :=
  xmul (xmul (Fin lambda) fisher)
       (Fin ((current - snapshot) * (current - snapshot))).

(** Element [k] of the tensor that entry [i] of a history keeps for [name]. *)
Definition history_entry {V : Type} `{Inhabited V}
    (history : list (gmap string (list V))) (i : nat) (name : string) (k : nat) : V :=
  ((history !!! i) !!! name) !!! k.

(** The penalty as the specification words it: the sum over every historical
    task index, every parameter the live model names and every element of the
    parameter's tensor. *)
Definition ewc_penalty (lambda : Qc) (named : list (string * param))
    (ts : TrainingStates) : xscalar :=
  xsum (λ i,
    xsum (λ '(name, p),
      xsum (λ k,
        penalty_term lambda
          (history_entry (fishers ts) i name k)
          (data p !!! k)
          (history_entry (params ts) i name k))
        (seq 0 (length (data p))))
      named)
    (seq 0 (length (params ts))).

(** A dictionary of a history has, for every parameter the live model names,
    an entry of the parameter's shape. *)
Definition covers {V : Type} (named : list (string * param))
    (d : gmap string (list V)) : Prop :=
  Forall (λ '(name, p),
            match d !! name with
            | Some v => length v = length (data p)
            | None => False
            end) named.

(** The invariants of the data model: the two lists are aligned, and every
    entry covers the live model. *)
Definition history_fits (named : list (string * param)) (ts : TrainingStates) : Prop :=
  length (fishers ts) = length (params ts)
  ∧ Forall (covers named) (fishers ts)
  ∧ Forall (covers named) (params ts).

(** A training step that adds a given penalty to the task loss: backward
    pass on the sum, one optimizer step, the evaluation metric. *)
Definition penalized_step (self : GCTrainer) (penalty : xscalar)
    (results : Results (predictions self)) (_curr_batch : batch self)
    : M (world (state self)) (StepInfo (metric self)) :=
  let total_loss := xadd (Fin (loss results)) penalty in
  run call (backward self total_loss) then
  run call (step self) then
  let* formatted := call (predictionFormat self results) in
  let* acc := call (eval_fn self formatted _curr_batch) in
  ret {| _num_items := preds_items self (preds results);
         step_loss := total_loss;
         acc := acc |}.

(** ** A scripted trainer

    A small instance of the collaborators, on which the definitions run: the
    state is the list of the model's parameters and what the autograd engine
    holds; a batch is a script that says how many items it has, what the
    parameters look like once its loss has been backpropagated, and whether
    its inference fails; the optimizer is plain gradient descent with unit
    learning rate. *)

Record scripted_batch : Type := {
  items : nat;
  after_backward : list (string * param);
  fails : bool
}.

Record scripted_state : Type := {
  model_params : list (string * param);
  autograd : list (string * param)
}.

Definition clear_grad (np : string * param) : string * param :=
  (np.1, {| data := data np.2; grad := None |}).

Definition descend (np : string * param) : string * param :=
  match grad np.2 with
  | Some g => (np.1, {| data := zip_with Qcminus (data np.2) g; grad := Some g |})
  | None => np
  end.

Definition scripted (lambda : Qc) : GCTrainer := {|
  state := scripted_state;
  batch := scripted_batch;
  dataset := list scripted_batch;
  predictions := nat;
  formatted := nat;
  metric := nat;
  lamb := lambda;
  named_parameters := model_params;
  zero_grad := modify (λ s, {| model_params := clear_grad <$> model_params s;
                               autograd := autograd s |});
  backward := λ _, modify (λ s, {| model_params := autograd s;
                                   autograd := autograd s |});
  step := modify (λ s, {| model_params := descend <$> model_params s;
                          autograd := autograd s |});
  inference := λ b _,
    if fails b then raise (External 1)
    else run modify (λ s, {| model_params := model_params s;
                             autograd := after_backward b |}) then
         ret {| preds := items b; loss := 0 |};
  prepareLoader := λ d _, ret d;
  predictionFormat := λ r, ret (preds r);
  eval_fn := λ _ _, ret 0%nat;
  base_processAfterTraining := λ _ _ _, ret tt;
  num_items := items;
  preds_items := λ n, n
|}.

(** A rational given by numerator and denominator. *)
Definition frac (n : Z) (d : positive) : Qc := Q2Qc (n # d).

(** The scenario of the specification: two completed tasks, one parameter
    [w] with Fisher values 0.01 and 0.02 and snapshots 1.0 and 2.0, and the
    current value 1.5. *)
Definition two_tasks : TrainingStates := {|
  fishers := [ {[ "w" := [Fin (frac 1 100)] ]}; {[ "w" := [Fin (frac 2 100)] ]} ];
  params := [ {[ "w" := [frac 1 1] ]}; {[ "w" := [frac 2 1] ]} ]
|}.

Definition live_w : list (string * param) :=
  [ ("w", {| data := [frac 3 2]; grad := None |}) ].

(** ** The Fisher pass as its collaborators see it *)

(** What one batch of the pass leaves behind: its number of items, and the
    parameters the model names once the loss of the batch has been
    backpropagated. *)
Record observation : Type := {
  seen_items : nat;
  seen_named : list (string * param)
}.

(** The collaborators' calls for one batch, in the order of the pass: clear
    the gradients, run inference, backpropagate the loss. *)
Definition batch_calls (self : GCTrainer) (ts : TrainingStates) (b : batch self)
    : M (state self) observation :=
  run zero_grad self then
  let* r := inference self b ts in
  run backward self (Fin (loss r)) then
  let* t := get in
  ret {| seen_items := num_items self b; seen_named := named_parameters self t |}.

(** The calls for the batches of a loader, in order, up to the first one that
    raises: the observations of the batches that completed, the exception
    that ended the pass if there is one, and the state at the end. *)
Fixpoint pass_calls (self : GCTrainer) (ts : TrainingStates) (bs : list (batch self))
    (t : state self) : list observation * option exn * state self :=
  match bs with
  | [] => ([], None, t)
  | b :: bs' =>
      match batch_calls self ts b t with
      | (Ok o, t') =>
          let '(os, e, t'') := pass_calls self ts bs' t' in (o :: os, e, t'')
      | (Raise e, t') => ([], Some e, t')
      end
  end.

(** The collaborators' calls of a whole pass: the base trainer's hook, the
    loader, the batches.  The result is the parameters named after the hook,
    the observations of the completed batches, the exception of the first
    call that raised if there is one, and the state at the end. *)
Definition pass_of (self : GCTrainer) (task_id : nat) (curr_dataset : dataset self)
    (w : world (state self))
    : list (string * param) * list observation * option exn * state self :=
  match base_processAfterTraining self task_id curr_dataset (training_states w) (ext w) with
  | (Ok _, t1) =>
      match prepareLoader self curr_dataset (training_states w) t1 with
      | (Ok bs, t2) =>
          let '(os, e, t3) := pass_calls self (training_states w) bs t2 in
          (named_parameters self t1, os, e, t3)
      | (Raise e, t2) => (named_parameters self t1, [], Some e, t2)
      end
  | (Raise e, t1) => ([], [], Some e, t1)
  end.

(** A parameter of an observation keeps the name and the shape it had when
    the pass began: same names in the same order, and a gradient, when there
    is one, of the shape of the parameter. *)
Definition steady (named0 named : list (string * param)) : Prop :=
  Forall2 (λ x0 x,
             x.1 = x0.1
             ∧ match grad x.2 with
               | Some g => length g = length (data x0.2)
               | None => True
               end)
          named0 named.

(** The model does not change its architecture during the pass, and names
    every parameter once. *)
Definition well_formed_pass (named0 : list (string * param)) (os : list observation)
    (final : list (string * param)) : Prop :=
  NoDup named0.*1
  ∧ Forall (λ o, steady named0 (seen_named o)) os
  ∧ final.*1 = named0.*1.

(** The parameter of a name in a list of named parameters. *)
Definition param_of (named : list (string * param)) (name : string) : option param :=
  (list_to_map named : gmap string param) !! name.

(** Element [k] of the gradient of a parameter after a batch, zero when the
    parameter has no gradient. *)
Definition grad_entry (o : observation) (name : string) (k : nat) : Qc :=
  match param_of (seen_named o) name ≫= grad with
  | Some g => g !!! k
  | None => 0
  end.

(** The sum of [f] over a list of rationals' sources. *)
Definition qsum {A : Type} (f : A → Qc) (l : list A) : Qc :=
  foldr (λ a s, f a + s) 0 l.
#[global] Arguments qsum : simpl never.

(** All items of the pass. *)
Definition total_items (os : list observation) : nat :=
  sum_list (seen_items <$> os).

(** The sum over the batches of [gradient ** 2 * batch_item_count], for one
    element of one parameter. *)
Definition weighted_squares (os : list observation) (name : string) (k : nat) : Qc :=
  qsum (λ o, grad_entry o name k * grad_entry o name k * of_count (seen_items o)) os.

(** The Fisher estimate of the specification for one element of one
    parameter: the weighted squares divided by the total item count. *)
Definition fisher_entry (os : list observation) (name : string) (k : nat) : Qc :=
  weighted_squares os name k / of_count (total_items os).

(** What the pass computes from the observations of its batches: the loop
    over the parameters, once per batch, and the running item count. *)
Definition replay (os : list observation)
    (acc : gmap string tensor * gmap string xtensor * nat)
    : outcome (gmap string tensor * gmap string xtensor * nat) :=
  fold_outcome
    (λ '(params, fishers, total_num_items) o,
       match GCTaskILEWCTrainer.accumulate (seen_items o) (seen_named o)
               (params, fishers) with
       | Ok (params, fishers) =>
           Ok (params, fishers, (total_num_items + seen_items o)%nat)
       | Raise e => Raise e
       end)
    os acc.

(** ** The four classes *)

Inductive trainer_class : Type :=
  | GCTaskIL
  | GCClassIL
  | GCDomainIL
  | GCTimeIL.

(** The method a call on an instance of a class resolves to. *)
Definition afterInference_of (c : trainer_class) (self : GCTrainer)
    : Results (predictions self) → batch self →
      M (world (state self)) (StepInfo (metric self)) :=
  match c with
  | GCTaskIL => GCTaskILEWCTrainer.afterInference self
  | GCClassIL => GCClassILEWCTrainer.afterInference self
  | GCDomainIL => GCDomainILEWCTrainer.afterInference self
  | GCTimeIL => GCTimeILEWCTrainer.afterInference self
  end.

Definition initTrainingStates_of (c : trainer_class) : TrainingStates :=
  match c with
  | GCTaskIL => GCTaskILEWCTrainer.initTrainingStates
  | GCClassIL => GCClassILEWCTrainer.initTrainingStates
  | GCDomainIL => GCDomainILEWCTrainer.initTrainingStates
  | GCTimeIL => GCTimeILEWCTrainer.initTrainingStates
  end.

Definition processAfterTraining_of (c : trainer_class) (self : GCTrainer)
    : nat → dataset self → M (world (state self)) unit :=
  match c with
  | GCTaskIL => GCTaskILEWCTrainer.processAfterTraining self
  | GCClassIL => GCClassILEWCTrainer.processAfterTraining self
  | GCDomainIL => GCDomainILEWCTrainer.processAfterTraining self
  | GCTimeIL => GCTimeILEWCTrainer.processAfterTraining self
  end.

Definition loss_reg_of (c : trainer_class) (self : GCTrainer)
    : list (string * param) → TrainingStates → outcome xscalar :=
  match c with
  | GCTaskIL => GCTaskILEWCTrainer.loss_reg self
  | _ => GCClassILEWCTrainer.loss_reg self
  end.

(** ** A run

    The driver of a run is not part of this file.  What it can do to the
    training states, with a trainer of class [c], is: train on a batch
    ([afterInference]), finish a task ([processAfterTraining], which ends
    normally or raises), and anything else that involves the collaborators
    only.  A point of a run is the number of tasks completed so far and the
    state. *)
Inductive driver_step (c : trainer_class) (self : GCTrainer)
    : nat * world (state self) → nat * world (state self) → Prop :=
  | step_train (n : nat) (w w' : world (state self))
      (results : Results (predictions self)) (b : batch self)
      (r : outcome (StepInfo (metric self))) :
      afterInference_of c self results b w = (r, w') →
      driver_step c self (n, w) (n, w')
  | step_task_completed (n : nat) (w w' : world (state self))
      (task_id : nat) (ds : dataset self) :
      processAfterTraining_of c self task_id ds w = (Ok tt, w') →
      driver_step c self (n, w) (S n, w')
  | step_task_failed (n : nat) (w w' : world (state self))
      (task_id : nat) (ds : dataset self) (e : exn) :
      processAfterTraining_of c self task_id ds w = (Raise e, w') →
      driver_step c self (n, w) (n, w')
  | step_elsewhere (n : nat) (w : world (state self)) (t' : state self) :
      driver_step c self (n, w) (n, {| ext := t'; training_states := training_states w |}).

(** A run starts with no task completed and the training states of
    [initTrainingStates]. *)
Definition run_start (c : trainer_class) {T : Type} (p : nat * world T) : Prop :=
  p.1 = 0%nat ∧ training_states p.2 = initTrainingStates_of c.

(** No task has been completed. *)
Definition no_history (ts : TrainingStates) : Prop :=
  params ts = [] ∧ fishers ts = [].

(** A training step without a penalty: backward pass on the task loss, one
    optimizer step, the evaluation metric. *)
Definition plain_step (self : GCTrainer)
    (results : Results (predictions self)) (_curr_batch : batch self)
    : M (world (state self)) (StepInfo (metric self)) :=
  let total_loss := Fin (loss results) in
  run call (backward self total_loss) then
  run call (step self) then
  let* formatted := call (predictionFormat self results) in
  let* acc := call (eval_fn self formatted _curr_batch) in
  ret {| _num_items := preds_items self (preds results);
         step_loss := total_loss;
         acc := acc |}.

#[global] Instance param_eq_dec : EqDecision param.
Proof. solve_decision. Defined.

#[global] Instance TrainingStates_eq_dec : EqDecision TrainingStates.
Proof. solve_decision. Defined.

#[global] Instance scripted_state_eq_dec : EqDecision scripted_state.
Proof. solve_decision. Defined.

#[global] Instance world_eq_dec {T : Type} `{EqDecision T} : EqDecision (world T).
Proof. solve_decision. Defined.

#[global] Instance StepInfo_eq_dec {A : Type} `{EqDecision A} : EqDecision (StepInfo A).
Proof. solve_decision. Defined.

(** ** Scripted runs *)

(** A model with a parameter [w] of two elements and a parameter [frozen]
    that no backward pass reaches. *)
Definition w_before : param := {| data := [frac 1 1; frac 2 1]; grad := None |}.
Definition frozen : param := {| data := [frac 5 1]; grad := None |}.
Definition model_before : list (string * param) :=
  [ ("w", w_before); ("frozen", frozen) ].

(** The gradient of [w], the same after both batches. *)
Definition g_w : tensor := [frac 2 1; frac (-1) 2].

(** A batch of three items, and a batch of five items during which the
    second element of [w] moves from 2 to 3. *)
Definition after_3 : list (string * param) :=
  [ ("w", {| data := [frac 1 1; frac 2 1]; grad := Some g_w |}); ("frozen", frozen) ].
Definition after_5 : list (string * param) :=
  [ ("w", {| data := [frac 1 1; frac 3 1]; grad := Some g_w |}); ("frozen", frozen) ].
Definition batch_of_3 : scripted_batch :=
  {| items := 3; after_backward := after_3; fails := false |}.
Definition batch_of_5 : scripted_batch :=
  {| items := 5; after_backward := after_5; fails := false |}.

(** A batch whose inference raises. *)
Definition failing_batch : scripted_batch :=
  {| items := 2; after_backward := []; fails := true |}.

Definition world_before (ts : TrainingStates) : world scripted_state :=
  {| ext := {| model_params := model_before; autograd := [] |};
     training_states := ts |}.

Definition seen_3_5 : list observation :=
  [ {| seen_items := 3; seen_named := after_3 |};
    {| seen_items := 5; seen_named := after_5 |} ].

Definition state_after_5 : scripted_state :=
  {| model_params := after_5; autograd := after_5 |}.

(** The trainer of the scripted runs, with the default [lamb]. *)
Definition scripted_default : GCTrainer := scripted (init_lamb ∅).

(** A training step on the scenario of two completed tasks: inference on a
    batch of three items has run, and backward will leave the gradient 0.5
    on [w]. *)
Definition live_w_after_backward : list (string * param) :=
  [ ("w", {| data := [frac 3 2]; grad := Some [frac 1 2] |}) ].

Definition training_world : world scripted_state :=
  {| ext := {| model_params := live_w; autograd := live_w_after_backward |};
     training_states := two_tasks |}.

Definition results_of_3 : Results nat := {| preds := 3%nat; loss := frac 0 1 |}.

Definition training_world_after : world scripted_state :=
  {| ext := {| model_params :=
                 [ ("w", {| data := [frac 1 1]; grad := Some [frac 1 2] |}) ];
               autograd := live_w_after_backward |};
     training_states := two_tasks |}.

(** The history after the scripted pass over the batches of 3 and 5 items. *)
Definition one_task : TrainingStates :=
  {| fishers := [ {[ "w" := [Fin (frac 4 1); Fin (frac 1 4)];
                     "frozen" := [Fin (frac 0 1)] ]} ];
     params := [ {[ "w" := [frac 1 1; frac 3 1]; "frozen" := [frac 5 1] ]} ] |}.

(** ** The inference step of the task-incremental class *)

Module GCTaskILEWCTrainer_inference.

(** [inference] (lines 27-34): a feature is handed to the model when the
    graph has it, [None] otherwise; the task masks always are. *)
Definition inference (self : GCTrainer) (fw : Forward self) (_curr_batch : batch self)
    (training_states : TrainingStates) : M (state self) (Results (predictions self)) :=
  let '(graphs, labels, masks) := unpack fw _curr_batch in
  let* preds :=
    model_call fw graphs
      (ndata fw graphs !! "feat")
      (edata fw graphs !! "feat")
      (edata fw graphs !! "weight")
      masks in
  let* loss := loss_fn fw preds labels in
  ret {| preds := preds; loss := loss |}.

End GCTaskILEWCTrainer_inference.

(** ** Further notions of the penalty *)

(** What one entry of the history adds to the penalty. *)
Definition entry_penalty (lambda : Qc) (named : list (string * param))
    (P : gmap string tensor) (F : gmap string xtensor) : xscalar :=
  xsum (λ '(name, p),
          xsum (λ k, penalty_term lambda
                       ((F !!! name) !!! k)
                       (data p !!! k)
                       ((P !!! name) !!! k))
               (seq 0 (length (data p))))
       named.

(** Every pair that the loop of [afterInference] visits covers the live
    model. *)
Definition history_covers (named : list (string * param)) (ts : TrainingStates) : Prop :=
  Forall (λ '(P, F), covers named P ∧ covers named F)
         (zip (params ts) (fishers ts)).

(** The parameters have the names and the shapes they had before. *)
Definition same_shapes (named0 named : list (string * param)) : Prop :=
  Forall2 (λ x0 x, x.1 = x0.1 ∧ length (data x.2) = length (data x0.2)) named0 named.

(** The training states with one more pair. *)
Definition with_entry (ts : TrainingStates) (P : gmap string tensor)
    (F : gmap string xtensor) : TrainingStates :=
  {| fishers := fishers ts ++ [F]; params := params ts ++ [P] |}.

(** ** Variations of a trainer *)

(** The same trainer with another optimizer step, prediction format and
    evaluation function. *)
Definition with_training_side (self : GCTrainer) (step' : M (state self) unit)
    (format' : Results (predictions self) → M (state self) (formatted self))
    (eval' : formatted self → batch self → M (state self) (metric self))
    : GCTrainer :=
  {| state := state self; batch := batch self; dataset := dataset self;
     predictions := predictions self; formatted := formatted self;
     metric := metric self; lamb := lamb self;
     named_parameters := named_parameters self;
     zero_grad := zero_grad self; backward := backward self;
     step := step';
     inference := inference self; prepareLoader := prepareLoader self;
     predictionFormat := format'; eval_fn := eval';
     base_processAfterTraining := base_processAfterTraining self;
     num_items := num_items self; preds_items := preds_items self |}.

(** The same trainer with another way to clear gradients, run inference,
    make a loader and finish a task in the base class. *)
Definition with_estimation_side (self : GCTrainer) (zero_grad' : M (state self) unit)
    (inference' : batch self → TrainingStates → M (state self) (Results (predictions self)))
    (loader' : dataset self → TrainingStates → M (state self) (list (batch self)))
    (hook' : nat → dataset self → TrainingStates → M (state self) unit)
    : GCTrainer :=
  {| state := state self; batch := batch self; dataset := dataset self;
     predictions := predictions self; formatted := formatted self;
     metric := metric self; lamb := lamb self;
     named_parameters := named_parameters self;
     zero_grad := zero_grad'; backward := backward self;
     step := step self;
     inference := inference'; prepareLoader := loader';
     predictionFormat := predictionFormat self; eval_fn := eval_fn self;
     base_processAfterTraining := hook';
     num_items := num_items self; preds_items := preds_items self |}.

(** A trainer of the task-incremental class: [self.inference] is the method
    of the class. *)
Definition task_incremental (self : GCTrainer) (fw : Forward self) : GCTrainer :=
  with_estimation_side self (zero_grad self)
    (GCTaskILEWCTrainer_inference.inference self fw)
    (prepareLoader self) (base_processAfterTraining self).

(** The forward pass of the scripted trainer: the graph of a batch is the
    script itself and has no features; a failing script makes the model
    raise. *)
Definition scripted_forward (lambda : Qc) : Forward (scripted lambda) :=
  @Build_Forward (scripted lambda) scripted_batch unit unit tensor
    (λ b : scripted_batch, (b, tt, tt))
    (λ _, ∅)
    (λ _, ∅)
    (λ (g : scripted_batch) _ _ _ _,
       if fails g then raise (External 1)
       else run modify (λ s : scripted_state,
                          {| model_params := model_params s;
                             autograd := after_backward g |}) then
            ret (items g))
    (λ _ _, ret 0).

(** The history after a scripted pass on an empty dataset. *)
Definition nan_task : TrainingStates :=
  {| fishers := [ {[ "w" := [NaN; NaN]; "frozen" := [NaN] ]} ];
     params := [ {[ "w" := [frac 0 1; frac 0 1]; "frozen" := [frac 0 1] ]} ] |}.

(** A live model with a parameter that the history does not know. *)
Definition live_v : list (string * param) :=
  [ ("v", {| data := [frac 1 1]; grad := None |}) ].

(** ** The arithmetic of the Fisher pass in binary32

    The tensors of a model are [float32] tensors unless the model says
    otherwise, and so are the tensors [zeros_like] makes from them.  What a
    pass stores in one Fisher accumulator is embedded here a second time,
    from the same lines, with the operations of IEEE 754 binary32 (round to
    nearest, ties to even): rounding, overflow to an infinity and NaN are
    part of this model.  It follows one parameter through the pass; the
    dictionaries, the collaborators and the history are those of the
    trainers above. *)

Module Float32.

Abbreviation float32 := SpecFloat.spec_float.

#[global] Instance float32_eq_dec : EqDecision float32.
Proof. solve_decision. Defined.

Definition prec : Z := 24.
Definition emax : Z := 128.

Definition zero : float32 := SpecFloat.S754_zero false.
Definition nan : float32 := SpecFloat.S754_nan.

#[global] Instance float32_inhabited : Inhabited float32 := populate zero.

Definition add : float32 → float32 → float32 := SpecFloat.SFadd prec emax.
Definition sub : float32 → float32 → float32 := SpecFloat.SFsub prec emax.
Definition mul : float32 → float32 → float32 := SpecFloat.SFmul prec emax.
Definition div : float32 → float32 → float32 := SpecFloat.SFdiv prec emax.


(** A Python [int] as the operand of a [float32] tensor. *)
Definition of_int (n : nat) : float32 :=
  SpecFloat.binary_normalize prec emax (Z.of_nat n) 0 false.


(** Neither an infinity nor NaN. *)
Definition is_finite (x : float32) : bool :=
  match x with
  | SpecFloat.S754_zero _ | SpecFloat.S754_finite _ _ _ => true
  | _ => false
  end.

(** [+0.0] or [-0.0] *)
Definition is_zero (x : float32) : bool :=
  match x with SpecFloat.S754_zero _ => true | _ => false end.

(** [torch.zeros_like(p)] (line 84) *)
Definition zeros_like (p : list float32) : list float32 :=
  replicate (length p) zero.

(** [if p.grad is not None:
       fishers[name] += (p.grad.data.clone().detach() ** 2) * curr_num_items]
    (line 96), on the accumulator of the parameter. *)
Definition accumulate (fisher : list float32) (grad : option (list float32))
    (curr_num_items : nat) : list float32 :=
  match grad with
  | Some g =>
      zip_with add fisher
        ((λ x, mul x (of_int curr_num_items)) <$> ((λ x, mul x x) <$> g))
  | None => fisher
  end.

(** [fishers[name] /= total_num_items] (line 99) *)
Definition normalize (fisher : list float32) (total_num_items : nat) : list float32 :=
  (λ x, div x (of_int total_num_items)) <$> fisher.


(** [l = self.lamb * _fisher[name]; l = l * ((p - _param[name]) ** 2)]
    (lines 56-57), for one element. *)
Definition penalty_term (lamb fisher p snapshot : float32) : float32 :=
  let l := mul lamb fisher in
  let d := sub p snapshot in
  mul l (mul d d).

(** All items of the batches. *)
Definition total_items (batches : list (option (list float32) * nat)) : nat :=
  sum_list batches.*2.

(** The sum over the batches, in their order, of
    [gradient ** 2 * batch_item_count] for element [k] of the parameter,
    every operation rounded. *)
Definition weighted_squares (batches : list (option (list float32) * nat)) (k : nat)
    : float32 :=
  foldl (λ s '(grad, n),
           match grad with
           | Some g => add s (mul (mul (g !!! k) (g !!! k)) (of_int n))
           | None => s
           end)
        zero batches.

(** The weighted squares divided by the total item count. *)
Definition fisher_entry (batches : list (option (list float32) * nat)) (k : nat)
    : float32 :=
  div (weighted_squares batches k) (of_int (total_items batches)).




End Float32.

(** ** Values for the binary32 runs *)

(** 0.7 as [float32] holds it, [11744051 * 2 ** -24]. *)
Definition seven_tenths : Float32.float32 :=
  Float32.div (Float32.of_int 7) (Float32.of_int 10).

(** 0.5 *)
Definition one_half : Float32.float32 :=
  Float32.div (Float32.of_int 1) (Float32.of_int 2).

(** [2 ** 100], whose square is beyond the largest [float32] number. *)
Definition two_to_100 : Float32.float32 := SpecFloat.S754_finite false 8388608 77.

(** [10000.], the default of [lamb]. *)
Definition default_lamb : Float32.float32 := Float32.of_int (100 * 100).

(** * Properties *)

(** ** Arithmetic of computed values *)

Lemma xadd_comm (a b : xscalar) : xadd a b = xadd b a.
Proof. destruct a, b; simpl; try reflexivity. f_equal. ring. Qed.

Lemma xadd_assoc (a b c : xscalar) : xadd a (xadd b c) = xadd (xadd a b) c.
Proof. destruct a, b, c; simpl; try reflexivity. f_equal. ring. Qed.

Lemma xadd_0_l (a : xscalar) : xadd (Fin 0) a = a.
Proof. destruct a; simpl; try reflexivity. f_equal. ring. Qed.

Lemma xadd_0_r (a : xscalar) : xadd a (Fin 0) = a.
Proof. rewrite xadd_comm. apply xadd_0_l. Qed.

Lemma xsum_nil {A : Type} (f : A → xscalar) : xsum f [] = Fin 0.
Proof. reflexivity. Qed.

Lemma xsum_cons {A : Type} (f : A → xscalar) (x : A) (l : list A) :
  xsum f (x :: l) = xadd (f x) (xsum f l).
Proof. reflexivity. Qed.

Lemma foldl_xadd (l : xtensor) (a : xscalar) :
  foldl xadd a l = xadd a (xsum id l).
Proof.
  revert a. induction l as [|x l IH]; intros a.
  - rewrite xsum_nil. symmetry. apply xadd_0_r.
  - rewrite xsum_cons. simpl. rewrite IH. symmetry. apply xadd_assoc.
Qed.

Lemma xtsum_xsum (t : xtensor) : xtsum t = xsum id t.
Proof. unfold xtsum. rewrite foldl_xadd. apply xadd_0_l. Qed.

Lemma xsum_ext {A : Type} (f g : A → xscalar) (l : list A) :
  (∀ a, a ∈ l → f a = g a) → xsum f l = xsum g l.
Proof.
  induction l as [|x l IH]; intros H; [reflexivity|].
  rewrite !xsum_cons, (H x) by left. rewrite IH; [reflexivity|].
  intros a Ha. apply H. by right.
Qed.

Lemma xsum_fmap {A B : Type} (h : A → B) (f : B → xscalar) (l : list A) :
  xsum f (h <$> l) = xsum (f ∘ h) l.
Proof.
  induction l as [|x l IH]; [reflexivity|].
  rewrite fmap_cons, !xsum_cons, IH. reflexivity.
Qed.

(** A sum over the entries of a list is a sum over its indices. *)
Lemma xsum_indices {A : Type} `{Inhabited A} (f : A → xscalar) (l : list A) :
  xsum f l = xsum (λ k, f (l !!! k)) (seq 0 (length l)).
Proof.
  induction l as [|x l IH]; [reflexivity|].
  cbn [length seq]. rewrite !xsum_cons. f_equal.
  rewrite IH, <- fmap_S_seq, xsum_fmap. reflexivity.
Qed.

(** ** The penalty *)

Lemma elementwise_ok {A B C : Type} (f : A → B → C) (a : list A) (b : list B) :
  length a = length b → elementwise f a b = Ok (zip_with f a b).
Proof. intros H. unfold elementwise. by rewrite decide_True. Qed.

(** The sum of the elementwise products of one parameter is the sum of the
    penalty terms over the indices of its elements. *)
Lemma tensor_penalty_sum (lambda : Qc) (f : xtensor) (d s : tensor) :
  length f = length d → length s = length d →
  xsum id (zip_with xmul (xtscale lambda f) (embed (tsquare (zip_with Qcminus d s))))
  = xsum (λ k, penalty_term lambda (f !!! k) (d !!! k) (s !!! k)) (seq 0 (length d)).
Proof.
  revert f s. induction d as [|x d IH]; intros [|y f] [|z s] Hf Hs;
    simplify_eq/=; [reflexivity|].
  rewrite !xsum_cons. f_equal.
  rewrite <- fmap_S_seq, xsum_fmap. apply IH; assumption.
Qed.

Lemma covers_lookup {V : Type} (named : list (string * param))
    (d : gmap string (list V)) (name : string) (p : param) :
  covers named d → (name, p) ∈ named →
  ∃ v, d !! name = Some v ∧ length v = length (data p).
Proof.
  intros Hc Hin. unfold covers in Hc. rewrite list.Forall_forall in Hc.
  specialize (Hc _ Hin). simpl in Hc.
  destruct (d !! name) as [v|]; [eauto | done].
Qed.

(** The loop over the parameters, for one entry of the history. *)
Lemma loss_reg_inner (self : GCTrainer) (_param : gmap string tensor)
    (_fisher : gmap string xtensor) (named all : list (string * param))
    (acc : xscalar) :
  covers all _fisher → covers all _param → named ⊆ all →
  fold_outcome
    (λ loss_reg '(name, p),
       let? f := getitem _fisher name in
       let? snapshot := getitem _param name in
       let? d := tsub (data p) snapshot in
       let? l := xtmul (xtscale (lamb self) f) (embed (tsquare d)) in
       Ok (xadd loss_reg (xtsum l)))
    named acc
  = Ok (xadd acc
          (xsum (λ '(name, p),
                   xsum (λ k, penalty_term (lamb self)
                                ((_fisher !!! name) !!! k)
                                (data p !!! k)
                                ((_param !!! name) !!! k))
                        (seq 0 (length (data p))))
                named)).
Proof.
  intros HF HP. revert acc.
  induction named as [|[name p] named IH]; intros acc Hsub.
  - rewrite xsum_nil, xadd_0_r. reflexivity.
  - assert ((name, p) ∈ all) as Hin by (apply Hsub; left).
    destruct (covers_lookup _ _ _ _ HF Hin) as (f & Hf & Hlf).
    destruct (covers_lookup _ _ _ _ HP Hin) as (s & Hs & Hls).
    cbn [fold_outcome]. unfold getitem. rewrite Hf, Hs. cbn [and_then].
    unfold tsub. rewrite elementwise_ok by congruence. cbn [and_then].
    unfold xtmul. rewrite elementwise_ok; cycle 1.
    { unfold xtscale, embed, tsquare. rewrite !length_fmap, length_zip_with. lia. }
    cbn [and_then]. rewrite IH; cycle 1.
    { intros x Hx. apply Hsub. by right. }
    f_equal. rewrite xsum_cons, xadd_assoc. do 2 f_equal.
    rewrite xtsum_xsum, tensor_penalty_sum by assumption.
    unfold lookup_total, map_lookup_total. rewrite Hf, Hs. reflexivity.
Qed.

Lemma zip_lookup_total {A B : Type} `{Inhabited A} `{Inhabited B}
    (l : list A) (k : list B) (i : nat) :
  (i < length l)%nat → (i < length k)%nat → zip l k !!! i = (l !!! i, k !!! i).
Proof.
  intros Hl Hk.
  destruct (lookup_lt_is_Some_2 _ _ Hl) as [x Hx].
  destruct (lookup_lt_is_Some_2 _ _ Hk) as [y Hy].
  rewrite (list_lookup_total_correct _ _ _ Hx), (list_lookup_total_correct _ _ _ Hy).
  apply list_lookup_total_correct.
  rewrite lookup_zip_with, Hx, Hy. reflexivity.
Qed.

(** The loop over the history. *)
Lemma loss_reg_outer (self : GCTrainer) (named : list (string * param))
    (hist : list (gmap string tensor * gmap string xtensor)) (acc : xscalar) :
  Forall (λ '(P, F), covers named P ∧ covers named F) hist →
  fold_outcome
    (λ loss_reg '(_param, _fisher),
       fold_outcome
         (λ loss_reg '(name, p),
            let? f := getitem _fisher name in
            let? snapshot := getitem _param name in
            let? d := tsub (data p) snapshot in
            let? l := xtmul (xtscale (lamb self) f) (embed (tsquare d)) in
            Ok (xadd loss_reg (xtsum l)))
         named loss_reg)
    hist acc
  = Ok (xadd acc
          (xsum (λ '(P, F),
                   xsum (λ '(name, p),
                           xsum (λ k, penalty_term (lamb self)
                                        ((F !!! name) !!! k)
                                        (data p !!! k)
                                        ((P !!! name) !!! k))
                                (seq 0 (length (data p))))
                        named)
                hist)).
Proof.
  intros Hh. revert acc. induction Hh as [|[P F] hist [HP HF] _ IH]; intros acc.
  - rewrite xsum_nil, xadd_0_r. reflexivity.
  - cbn [fold_outcome].
    rewrite (loss_reg_inner self P F named named acc HF HP) by done.
    rewrite IH, xsum_cons, xadd_assoc. reflexivity.
Qed.

Lemma history_fits_zip (named : list (string * param)) (ts : TrainingStates) :
  history_fits named ts →
  Forall (λ '(P, F), covers named P ∧ covers named F)
         (zip (params ts) (fishers ts)).
Proof.
  intros (_ & HF & HP). apply list.Forall_forall. intros [P F] Hin.
  apply elem_of_zip_with in Hin as (P' & F' & [= -> ->] & HP' & HF').
  rewrite list.Forall_forall in HF. rewrite list.Forall_forall in HP.
  split; auto.
Qed.

(** The loop of [afterInference] computes the penalty of the specification. *)
Lemma task_loss_reg_closed (self : GCTrainer) (named : list (string * param))
    (ts : TrainingStates) :
  history_fits named ts →
  GCTaskILEWCTrainer.loss_reg self named ts = Ok (ewc_penalty (lamb self) named ts).
Proof.
  intros Hfit. unfold GCTaskILEWCTrainer.loss_reg. cbv zeta.
  rewrite loss_reg_outer by (by apply history_fits_zip).
  rewrite xadd_0_l. f_equal. unfold ewc_penalty.
  destruct Hfit as (Hlen & _ & _).
  rewrite (xsum_indices _ (zip (params ts) (fishers ts))).
  rewrite length_zip_with, Hlen, Nat.min_id.
  apply xsum_ext. intros i Hi. apply elem_of_seq in Hi.
  rewrite zip_lookup_total by lia. reflexivity.
Qed.

(** With a penalty that the loop computes, [afterInference] is the penalized
    step. *)
Lemma task_afterInference_penalized (self : GCTrainer)
    (results : Results (predictions self)) (b : batch self)
    (w : world (state self)) (penalty : xscalar) :
  GCTaskILEWCTrainer.loss_reg self (named_parameters self (ext w)) (training_states w)
    = Ok penalty →
  GCTaskILEWCTrainer.afterInference self results b w
    = penalized_step self penalty results b w.
Proof.
  intros Hp. unfold GCTaskILEWCTrainer.afterInference, penalized_step.
  unfold bind at 1. cbn [get]. unfold bind at 1. unfold lift_outcome.
  rewrite Hp. reflexivity.
Qed.

(** Closes an equation between closed terms by evaluating both sides. *)
Ltac by_evaluation :=
  apply (bool_decide_eq_true_1 _); vm_compute; reflexivity.

(** ** The Fisher pass *)

(** Unfolds the plumbing of calls. *)
Ltac run_calls :=
  unfold bind, call, get, ret, raise, modify, lift_outcome; cbn [ext training_states].

(** The loop over the batches is the collaborators' calls followed by the
    replay of their observations, as long as the replay does not raise. *)
Lemma estimate_loop (self : GCTrainer) (bs : list (batch self))
    (acc acc' : gmap string tensor * gmap string xtensor * nat)
    (w : world (state self)) (os : list observation) (e : option exn)
    (t' : state self) :
  pass_calls self (training_states w) bs (ext w) = (os, e, t') →
  replay os acc = Ok acc' →
  for_each bs (GCTaskILEWCTrainer.estimate_batch self) acc w
  = (match e with None => Ok acc' | Some x => Raise x end,
     {| ext := t'; training_states := training_states w |}).
Proof.
  revert acc w os e t'. induction bs as [|b bs IH]; intros acc w os e t' Hcalls Hreplay.
  - unfold replay in Hreplay. simplify_eq/=. destruct w. reflexivity.
  - cbn [pass_calls] in Hcalls. unfold batch_calls in Hcalls.
    cbn [for_each]. unfold GCTaskILEWCTrainer.estimate_batch.
    destruct acc as [[P F] tot].
    revert Hcalls. run_calls.
    destruct (zero_grad self (ext w)) as [[[]|e1] t1]; cbn [ext training_states].
    2:{ intros [= <- <- <-]. simplify_eq/=. reflexivity. }
    destruct (inference self b (training_states w) t1) as [[r|e2] t2];
      cbn [ext training_states].
    2:{ intros [= <- <- <-]. simplify_eq/=. reflexivity. }
    destruct (backward self (Fin (loss r)) t2) as [[[]|e3] t3];
      cbn [ext training_states].
    2:{ intros [= <- <- <-]. simplify_eq/=. reflexivity. }
    destruct (pass_calls self (training_states w) bs t3) as [[os' e'] t''] eqn:Hrest.
    intros [= <- <- <-].
    cbn [replay fold_outcome seen_items seen_named] in Hreplay.
    destruct (GCTaskILEWCTrainer.accumulate (num_items self b)
                (named_parameters self t3) (P, F)) as [[P1 F1]|ea]; [|done].
    specialize (IH (P1, F1, (tot + num_items self b)%nat)
                   {| ext := t3; training_states := training_states w |} os' e' t'').
    cbn [ext training_states] in IH. apply IH; [exact Hrest | exact Hreplay].
Qed.

Lemma param_of_nil (name : string) : param_of [] name = None.
Proof. unfold param_of. cbn. apply lookup_empty. Qed.

Lemma param_of_cons (n : string) (p : param) (named : list (string * param))
    (name : string) :
  param_of ((n, p) :: named) name
  = if decide (n = name) then Some p else param_of named name.
Proof. unfold param_of. cbn. apply lookup_insert. Qed.

Lemma param_of_None (named : list (string * param)) (name : string) :
  name ∉ named.*1 → param_of named name = None.
Proof. intros H. unfold param_of. by apply not_elem_of_list_to_map_1. Qed.

Lemma param_of_Some (named : list (string * param)) (name : string) (p : param) :
  NoDup named.*1 → (name, p) ∈ named → param_of named name = Some p.
Proof. intros Hnd Hin. unfold param_of. by apply elem_of_list_to_map_1. Qed.

Lemma steady_names (named0 named : list (string * param)) :
  steady named0 named → named.*1 = named0.*1.
Proof.
  induction 1 as [|x0 x r0 r [Hn _] _ IH]; [reflexivity|].
  cbn. by rewrite Hn, IH.
Qed.

(** One more binding of a dictionary that covers a list still covers it. *)
Lemma covers_insert {V : Type} (named : list (string * param))
    (d : gmap string (list V)) (name : string) (v : list V) :
  covers named d → name ∉ named.*1 → covers named (<[name := v]> d).
Proof.
  unfold covers. rewrite !list.Forall_forall. intros Hc Hn [n p] Hin.
  specialize (Hc _ Hin). cbn in Hc |- *.
  rewrite lookup_insert_ne; [exact Hc|].
  intros ->. apply Hn. apply list_elem_of_fmap. by exists (n, p).
Qed.

(** The loop over the parameters, in closed form: the snapshot takes the
    value of every parameter it meets, and the accumulator of a parameter
    with a gradient grows by the squared gradient times the item count. *)
Lemma accumulate_closed (n : nat) (named0 named : list (string * param))
    (P : gmap string tensor) (F : gmap string xtensor) :
  NoDup named0.*1 → steady named0 named → covers named0 F →
  ∃ P' F',
    GCTaskILEWCTrainer.accumulate n named (P, F) = Ok (P', F')
    ∧ (∀ name, P' !! name
               = match param_of named name with
                 | Some p => Some (data p)
                 | None => P !! name
                 end)
    ∧ (∀ name, F' !! name
               = match param_of named name ≫= grad with
                 | Some g =>
                     (λ f, zip_with xadd f (embed (tscale_count (tsquare g) n)))
                       <$> F !! name
                 | None => F !! name
                 end).
Proof.
  intros Hnd Hst. revert P F.
  induction Hst as [|[n0 p0] [n1 p1] r0 r [Hname Hgrad] Hst IH]; intros P F Hc.
  - exists P, F. split; [reflexivity|]. split; intros name; by rewrite param_of_nil.
  - cbn in Hname, Hgrad. subst n1.
    apply list.NoDup_cons in Hnd as [Hfresh Hnd].
    apply list.Forall_cons in Hc as [Hhead Hc]. cbn in Hhead.
    destruct (F !! n0) as [f|] eqn:Hf; [|done].
    assert (n0 ∉ r.*1) as Hfresh' by (by rewrite (steady_names _ _ Hst)).
    unfold GCTaskILEWCTrainer.accumulate. cbn [fold_outcome data grad].
    destruct (grad p1) as [g|] eqn:Hg.
    + unfold getitem. rewrite Hf. cbn [and_then].
      unfold xtadd. rewrite elementwise_ok; cycle 1.
      { unfold embed, tscale_count, tsquare. rewrite !length_fmap. congruence. }
      cbn [and_then].
      destruct (IH Hnd (<[n0 := data p1]> P)
                  (<[n0 := zip_with xadd f (embed (tscale_count (tsquare g) n))]> F))
        as (P' & F' & Hrun & HP & HF).
      { by apply covers_insert. }
      exists P', F'. split; [exact Hrun|].
      split; intros name; rewrite param_of_cons.
      * rewrite HP. destruct (decide (n0 = name)) as [->|Hne].
        -- rewrite param_of_None by done. apply lookup_insert_eq.
        -- by rewrite lookup_insert_ne.
      * rewrite HF. destruct (decide (n0 = name)) as [->|Hne].
        -- rewrite param_of_None by done. cbn. rewrite Hg, lookup_insert_eq, Hf.
           reflexivity.
        -- by rewrite lookup_insert_ne.
    + destruct (IH Hnd (<[n0 := data p1]> P) F Hc) as (P' & F' & Hrun & HP & HF).
      exists P', F'. split; [exact Hrun|].
      split; intros name; rewrite param_of_cons.
      * rewrite HP. destruct (decide (n0 = name)) as [->|Hne].
        -- rewrite param_of_None by done. apply lookup_insert_eq.
        -- by rewrite lookup_insert_ne.
      * rewrite HF. destruct (decide (n0 = name)) as [->|Hne].
        -- rewrite param_of_None by done. cbn. by rewrite Hg.
        -- reflexivity.
Qed.

Lemma qsum_nil {A : Type} (f : A → Qc) : qsum f [] = 0.
Proof. reflexivity. Qed.

Lemma qsum_cons {A : Type} (f : A → Qc) (x : A) (l : list A) :
  qsum f (x :: l) = f x + qsum f l.
Proof. reflexivity. Qed.

Lemma embed_add (a b : tensor) :
  zip_with xadd (embed a) (embed b) = embed (zip_with Qcplus a b).
Proof.
  revert b. induction a as [|x a IH]; intros [|y b]; cbn; try reflexivity.
  f_equal. apply IH.
Qed.

Lemma zip_plus_lookup (a b : tensor) (k : nat) :
  length a = length b → (k < length a)%nat →
  zip_with Qcplus a b !!! k = a !!! k + b !!! k.
Proof.
  revert b k. induction a as [|x a IH]; intros [|y b] k Hl Hk; simplify_eq/=; [lia|].
  destruct k as [|k]; [reflexivity|]. cbn. apply IH; [assumption | lia].
Qed.

Lemma weighted_lookup (g : tensor) (n k : nat) :
  (k < length g)%nat →
  tscale_count (tsquare g) n !!! k = g !!! k * g !!! k * of_count n.
Proof.
  intros Hk. unfold tscale_count, tsquare.
  rewrite (list_lookup_total_fmap (λ x, x * of_count n)) by (rewrite length_fmap; lia).
  rewrite (list_lookup_total_fmap (λ x, x * x)) by lia. reflexivity.
Qed.

Lemma param_of_is_None (named : list (string * param)) (name : string) :
  param_of named name = None ↔ name ∉ named.*1.
Proof. unfold param_of. symmetry. apply not_elem_of_list_to_map. Qed.

Lemma param_of_elem (named : list (string * param)) (name : string) (p : param) :
  param_of named name = Some p → (name, p) ∈ named.
Proof. unfold param_of. apply elem_of_list_to_map_2. Qed.

(** The gradient of an observed parameter has the shape the parameter had
    when the pass began. *)
Lemma steady_grad_shape (named0 named : list (string * param)) (name : string)
    (p0 p : param) (g : tensor) :
  NoDup named0.*1 → steady named0 named →
  (name, p0) ∈ named0 → param_of named name = Some p → grad p = Some g →
  length g = length (data p0).
Proof.
  intros Hnd Hst Hin0 Hp Hg. apply param_of_elem in Hp.
  induction Hst as [|[n0 q0] [n1 q1] r0 r [Hname Hgrad] Hst IH]; [by inversion Hp|].
  cbn in Hname, Hgrad. subst n1.
  apply list.NoDup_cons in Hnd as [Hfresh Hnd].
  apply elem_of_cons in Hin0 as [Heq0|Hin0];
    apply elem_of_cons in Hp as [Heq|Hp]; simplify_eq.
  - by rewrite Hg in Hgrad.
  - exfalso. apply Hfresh.
    assert (n0 ∈ r.*1) as Hin by (apply list_elem_of_fmap; by exists (n0, p)).
    by rewrite (steady_names _ _ Hst) in Hin.
  - exfalso. apply Hfresh. apply list_elem_of_fmap. by exists (n0, p0).
  - by apply IH.
Qed.

(** What one batch adds to a rational accumulator of the right shape. *)
Lemma accumulate_entry (n : nat) (named0 named : list (string * param))
    (F F' : gmap string xtensor) (name : string) (p0 : param) (a : tensor) :
  NoDup named0.*1 → steady named0 named → (name, p0) ∈ named0 →
  length a = length (data p0) →
  F !! name = Some (embed a) →
  F' !! name
  = match param_of named name ≫= grad with
    | Some g =>
        (λ f, zip_with xadd f (embed (tscale_count (tsquare g) n))) <$> F !! name
    | None => F !! name
    end →
  ∃ a', F' !! name = Some (embed a') ∧ length a' = length a
        ∧ ∀ k, (k < length a)%nat →
               a' !!! k
               = a !!! k
                 + grad_entry {| seen_items := n; seen_named := named |} name k
                   * grad_entry {| seen_items := n; seen_named := named |} name k
                   * of_count n.
Proof.
  intros Hnd Hst Hin Hla HF HF'. unfold grad_entry. cbn [seen_named].
  destruct (param_of named name) as [p|] eqn:Hp; cbn in HF' |- *.
  2:{ exists a. rewrite HF', HF. repeat split. intros k _. ring. }
  destruct (grad p) as [g|] eqn:Hg.
  2:{ exists a. rewrite HF', HF. repeat split. intros k _. ring. }
  pose proof (steady_grad_shape _ _ _ _ _ _ Hnd Hst Hin Hp Hg) as Hlg.
  exists (zip_with Qcplus a (tscale_count (tsquare g) n)).
  rewrite HF', HF. cbn. rewrite embed_add.
  assert (length (tscale_count (tsquare g) n) = length a) as Hl.
  { unfold tscale_count, tsquare. rewrite !length_fmap. congruence. }
  split; [reflexivity|]. split.
  - rewrite length_zip_with. lia.
  - intros k Hk. rewrite zip_plus_lookup by (congruence || lia).
    rewrite weighted_lookup by lia. reflexivity.
Qed.

(** After one batch the accumulators still cover the model. *)
Lemma accumulate_covers (n : nat) (named0 named : list (string * param))
    (F F' : gmap string xtensor) :
  NoDup named0.*1 → steady named0 named → covers named0 F →
  (∀ name, F' !! name
           = match param_of named name ≫= grad with
             | Some g =>
                 (λ f, zip_with xadd f (embed (tscale_count (tsquare g) n)))
                   <$> F !! name
             | None => F !! name
             end) →
  covers named0 F'.
Proof.
  intros Hnd Hst Hc HF'. unfold covers. apply list.Forall_forall.
  intros [name p0] Hin.
  destruct (covers_lookup _ _ _ _ Hc Hin) as (f & Hf & Hlf).
  rewrite HF', Hf.
  destruct (param_of named name) as [p|] eqn:Hp; cbn; [|exact Hlf].
  destruct (grad p) as [g|] eqn:Hg; cbn; [|exact Hlf].
  pose proof (steady_grad_shape _ _ _ _ _ _ Hnd Hst Hin Hp Hg) as Hlg.
  rewrite length_zip_with. unfold embed, tscale_count, tsquare.
  rewrite !length_fmap. lia.
Qed.

Lemma total_items_cons (o : observation) (os : list observation) :
  total_items (o :: os) = (seen_items o + total_items os)%nat.
Proof. reflexivity. Qed.

Lemma weighted_squares_cons (o : observation) (os : list observation)
    (name : string) (k : nat) :
  weighted_squares (o :: os) name k
  = grad_entry o name k * grad_entry o name k * of_count (seen_items o)
    + weighted_squares os name k.
Proof. reflexivity. Qed.

(** The replay of a whole pass, in closed form. *)
Lemma replay_closed (named0 : list (string * param)) (os : list observation)
    (P : gmap string tensor) (F : gmap string xtensor) (tot : nat) :
  NoDup named0.*1 → Forall (λ o, steady named0 (seen_named o)) os →
  covers named0 F →
  ∃ P' F',
    replay os (P, F, tot) = Ok (P', F', (tot + total_items os)%nat)
    ∧ covers named0 F'
    ∧ (∀ name p0 a, (name, p0) ∈ named0 → length a = length (data p0) →
         F !! name = Some (embed a) →
         ∃ a', F' !! name = Some (embed a') ∧ length a' = length a
               ∧ ∀ k, (k < length a)%nat →
                      a' !!! k = a !!! k + weighted_squares os name k)
    ∧ match list.last os with
      | None => P' = P
      | Some o =>
          ∀ name, P' !! name
                  = match param_of (seen_named o) name with
                    | Some p => Some (data p)
                    | None => P !! name
                    end
      end.
Proof.
  intros Hnd Hos. revert P F tot.
  induction Hos as [|o os Hst Hos IH]; intros P F tot Hc.
  - exists P, F. unfold replay. cbn. rewrite Nat.add_0_r.
    repeat split; try done.
    intros name p0 a _ _ Ha. exists a. repeat split; try done.
    intros k _. unfold weighted_squares. rewrite qsum_nil. ring.
  - destruct (accumulate_closed (seen_items o) _ _ P F Hnd Hst Hc)
      as (P1 & F1 & Hrun & HP1 & HF1).
    pose proof (accumulate_covers _ _ _ _ _ Hnd Hst Hc HF1) as Hc1.
    destruct (IH P1 F1 (tot + seen_items o)%nat Hc1)
      as (P' & F' & Hrest & Hc' & HF' & HP').
    exists P', F'. split.
    { unfold replay in Hrest |- *. cbn [fold_outcome]. rewrite Hrun.
      rewrite Hrest, total_items_cons. do 2 f_equal. lia. }
    split; [exact Hc'|]. split.
    + intros name p0 a Hin Hla Ha.
      destruct o as [n named].
      destruct (accumulate_entry n named0 named F F1 name p0 a Hnd Hst Hin Hla Ha
                  (HF1 name)) as (a1 & Ha1 & Hl1 & He1).
      destruct (HF' name p0 a1 Hin ltac:(congruence) Ha1) as (a' & Ha' & Hl' & He').
      exists a'. split; [exact Ha'|]. split; [congruence|].
      intros k Hk. rewrite He' by lia. rewrite He1 by lia.
      rewrite weighted_squares_cons. cbn [seen_items]. ring.
    + destruct os as [|o' os'].
      * cbn in HP' |- *. subst P'. exact HP1.
      * change (list.last (o :: o' :: os')) with (list.last (o' :: os')).
        destruct (list.last (o' :: os')) as [ol|] eqn:Hlast;
          [|by apply last_None in Hlast].
        intros name. rewrite HP'.
        destruct (param_of (seen_named ol) name) eqn:Hp; [reflexivity|].
        rewrite HP1.
        assert (steady named0 (seen_named ol)) as Hstl.
        { rewrite list.Forall_forall in Hos. apply Hos.
          by apply last_Some_elem_of. }
        apply param_of_is_None in Hp.
        rewrite (steady_names _ _ Hstl), <- (steady_names _ _ Hst) in Hp.
        apply param_of_is_None in Hp. by rewrite Hp.
Qed.

(** The replay leaves alone what the accumulators hold under a name the
    model does not have. *)
Lemma replay_outside (named0 : list (string * param)) (os : list observation)
    (P P' : gmap string tensor) (F F' : gmap string xtensor) (tot tot' : nat)
    (name : string) :
  NoDup named0.*1 → Forall (λ o, steady named0 (seen_named o)) os →
  covers named0 F →
  replay os (P, F, tot) = Ok (P', F', tot') →
  name ∉ named0.*1 → F' !! name = F !! name.
Proof.
  intros Hnd Hos. revert P F tot.
  induction Hos as [|o os Hst Hos IH]; intros P F tot Hc Hrun Hout.
  - unfold replay in Hrun. cbn in Hrun. by simplify_eq.
  - destruct (accumulate_closed (seen_items o) _ _ P F Hnd Hst Hc)
      as (P1 & F1 & Hacc & _ & HF1).
    pose proof (accumulate_covers _ _ _ _ _ Hnd Hst Hc HF1) as Hc1.
    unfold replay in Hrun. cbn [fold_outcome] in Hrun. rewrite Hacc in Hrun.
    rewrite (IH P1 F1 _ Hc1 Hrun Hout), HF1.
    rewrite (param_of_None (seen_named o) name); [reflexivity|].
    by rewrite (steady_names _ _ Hst).
Qed.

(** The dictionaries the pass starts from. *)
Lemma foldl_insert_lookup {V : Type} (f : param → V) (named : list (string * param))
    (d : gmap string V) (name : string) :
  NoDup named.*1 →
  foldl (λ d '(name, p), <[name := f p]> d) d named !! name
  = match param_of named name with
    | Some p => Some (f p)
    | None => d !! name
    end.
Proof.
  intros Hnd. revert d. induction named as [|[n p] named IH]; intros d.
  - by rewrite param_of_nil.
  - apply list.NoDup_cons in Hnd as [Hfresh Hnd].
    cbn [foldl]. rewrite IH by done. rewrite param_of_cons.
    destruct (decide (n = name)) as [->|Hne].
    + rewrite param_of_None by done. apply lookup_insert_eq.
    + destruct (param_of named name); [reflexivity|]. by rewrite lookup_insert_ne.
Qed.

Lemma dict_of_lookup {V : Type} (f : param → V) (named : list (string * param))
    (name : string) :
  NoDup named.*1 → dict_of f named !! name = f <$> param_of named name.
Proof.
  intros Hnd. unfold dict_of. rewrite foldl_insert_lookup by done.
  destruct (param_of named name); [reflexivity | apply lookup_empty].
Qed.

Lemma zeros_cover (named0 : list (string * param)) :
  NoDup named0.*1 →
  covers named0 (dict_of (λ p, embed (zeros_like (data p))) named0).
Proof.
  intros Hnd. unfold covers. apply list.Forall_forall. intros [name p0] Hin.
  rewrite dict_of_lookup, (param_of_Some _ _ _ Hnd Hin) by done. cbn.
  unfold embed, zeros_like. by rewrite length_fmap, length_replicate.
Qed.

(** The loop that normalizes, in closed form. *)
Lemma normalize_closed (total : nat) (named : list (string * param))
    (F : gmap string xtensor) :
  NoDup named.*1 → (∀ name, name ∈ named.*1 → is_Some (F !! name)) →
  ∃ F', GCTaskILEWCTrainer.normalize total named F = Ok F'
        ∧ ∀ name, F' !! name
                  = if decide (name ∈ named.*1)
                    then (λ f, xtdiv_count f total) <$> F !! name
                    else F !! name.
Proof.
  intros Hnd. revert F. induction named as [|[n p] named IH]; intros F Hall.
  - exists F. split; [reflexivity|]. intros name.
    rewrite decide_False; [reflexivity|]. cbn. apply not_elem_of_nil.
  - apply list.NoDup_cons in Hnd as [Hfresh Hnd].
    destruct (Hall n) as [f Hf]; [cbn; left|].
    unfold GCTaskILEWCTrainer.normalize. cbn [fold_outcome].
    unfold getitem. rewrite Hf. cbn [and_then].
    destruct (IH Hnd (<[n := xtdiv_count f total]> F)) as (F' & Hrun & HF').
    { intros name Hin. destruct (decide (n = name)) as [->|Hne].
      - rewrite lookup_insert_eq. eauto.
      - rewrite lookup_insert_ne by done. apply Hall. cbn. by right. }
    exists F'. split; [exact Hrun|]. intros name. rewrite HF'.
    destruct (decide (n = name)) as [->|Hne].
    + rewrite decide_False by done. rewrite decide_True by (cbn; left).
      rewrite lookup_insert_eq, Hf. reflexivity.
    + rewrite lookup_insert_ne by done.
      destruct (decide (name ∈ named.*1)) as [Hin|Hnin].
      * rewrite decide_True by (cbn; by right). reflexivity.
      * rewrite decide_False; [reflexivity|].
        cbn. rewrite elem_of_cons. intros [->|?]; done.
Qed.

(** A pass whose collaborators all succeed on a model of steady architecture
    ends normally and appends one pair to the history; the Fisher estimate
    is the accumulated weighted squares divided by the item count, and the
    snapshot holds what the last batch left in the parameters. *)
Lemma pass_completes (self : GCTrainer) (task_id : nat) (ds : dataset self)
    (w : world (state self)) (named0 : list (string * param))
    (os : list observation) (t3 : state self) :
  pass_of self task_id ds w = (named0, os, None, t3) →
  well_formed_pass named0 os (named_parameters self t3) →
  ∃ P F,
    GCTaskILEWCTrainer.processAfterTraining self task_id ds w
    = (Ok tt,
       {| ext := t3;
          training_states :=
            {| fishers := fishers (training_states w) ++ [F];
               params := params (training_states w) ++ [P] |} |})
    ∧ (∀ name p0, (name, p0) ∈ named0 →
         ∃ a, F !! name = Some (xtdiv_count (embed a) (total_items os))
              ∧ length a = length (data p0)
              ∧ ∀ k, (k < length a)%nat → a !!! k = weighted_squares os name k)
    ∧ match list.last os with
      | None => P = dict_of (λ p, zeros_like (data p)) named0
      | Some o => ∀ name, P !! name = data <$> param_of (seen_named o) name
      end
    ∧ (∀ name, name ∉ named0.*1 → F !! name = None).
Proof.
  intros Hpass (Hnd & Hos & Hfinal).
  unfold pass_of in Hpass. unfold GCTaskILEWCTrainer.processAfterTraining.
  revert Hpass. run_calls.
  destruct (base_processAfterTraining self task_id ds (training_states w) (ext w))
    as [[[]|e1] t1]; [|done].
  cbn [ext training_states].
  destruct (prepareLoader self ds (training_states w) t1) as [[bs|e2] t2]; [|done].
  cbn [ext training_states].
  destruct (pass_calls self (training_states w) bs t2) as [[os' e'] t3'] eqn:Hcalls.
  intros [= <- -> -> ->].
  set (named0 := named_parameters self t1) in *.
  destruct (replay_closed named0 os
              (dict_of (λ p, zeros_like (data p)) named0)
              (dict_of (λ p, embed (zeros_like (data p))) named0) 0 Hnd Hos
              (zeros_cover _ Hnd))
    as (P' & F' & Hreplay & Hc' & HF' & HP').
  rewrite (estimate_loop self bs _ _
             {| ext := t2; training_states := training_states w |} os None t3
             Hcalls Hreplay).
  cbn [ext training_states].
  destruct (normalize_closed (0 + total_items os) (named_parameters self t3) F')
    as (F'' & Hnorm & HF'').
  { by rewrite Hfinal. }
  { intros name Hin. rewrite Hfinal in Hin.
    apply list_elem_of_fmap in Hin as ([n p0] & -> & Hin).
    destruct (covers_lookup _ _ _ _ Hc' Hin) as (f & Hf & _). cbn. eauto. }
  rewrite Hnorm. cbn [fishers params ext training_states].
  exists P', F''. split; [reflexivity|]. split.
  - intros name p0 Hin.
    destruct (HF' name p0 (zeros_like (data p0)) Hin) as (a & Ha & Hla & Hea).
    { unfold zeros_like. by rewrite length_replicate. }
    { rewrite dict_of_lookup, (param_of_Some _ _ _ Hnd Hin) by done. reflexivity. }
    exists a. rewrite HF'', decide_True, Ha; cycle 1.
    { rewrite Hfinal. apply list_elem_of_fmap. by exists (name, p0). }
    split; [reflexivity|].
    unfold zeros_like in Hla, Hea. rewrite length_replicate in Hla, Hea.
    split; [exact Hla|].
    intros k Hk. rewrite Hea by lia.
    rewrite lookup_total_replicate_2 by lia. ring.
  - split.
    + destruct (list.last os) as [o|] eqn:Hlast; [|exact HP'].
      intros name. rewrite HP'.
      destruct (param_of (seen_named o) name) eqn:Hp; [reflexivity|].
      cbn. rewrite dict_of_lookup by done.
      assert (steady named0 (seen_named o)) as Hst.
      { rewrite list.Forall_forall in Hos. apply Hos. by apply last_Some_elem_of. }
      apply param_of_is_None in Hp. rewrite (steady_names _ _ Hst) in Hp.
      apply param_of_is_None in Hp. by rewrite Hp.
    + intros name Hout. rewrite HF'', decide_False by (by rewrite Hfinal).
      rewrite (replay_outside named0 os _ _ _ _ _ _ name Hnd Hos
                 (zeros_cover _ Hnd) Hreplay Hout).
      rewrite dict_of_lookup by done. by rewrite param_of_None.
Qed.

(** ** What a call leaves of the history *)

Lemma estimate_batch_frame (self : GCTrainer)
    (acc : gmap string tensor * gmap string xtensor * nat) (b : batch self)
    (w w' : world (state self))
    (r : outcome (gmap string tensor * gmap string xtensor * nat)) :
  GCTaskILEWCTrainer.estimate_batch self acc b w = (r, w') →
  training_states w' = training_states w.
Proof.
  unfold GCTaskILEWCTrainer.estimate_batch. destruct acc as [[P F] tot]. run_calls.
  destruct (zero_grad self (ext w)) as [[[]|e1] t1]; cbn [ext training_states];
    [|by intros [= _ <-]].
  destruct (inference self b (training_states w) t1) as [[res|e2] t2];
    cbn [ext training_states]; [|by intros [= _ <-]].
  destruct (backward self (Fin (loss res)) t2) as [[[]|e3] t3];
    cbn [ext training_states]; [|by intros [= _ <-]].
  destruct (GCTaskILEWCTrainer.accumulate (num_items self b)
              (named_parameters self t3) (P, F)) as [[P1 F1]|e4];
    by intros [= _ <-].
Qed.

Lemma estimate_batches_frame (self : GCTrainer) (bs : list (batch self))
    (acc : gmap string tensor * gmap string xtensor * nat)
    (w w' : world (state self))
    (r : outcome (gmap string tensor * gmap string xtensor * nat)) :
  for_each bs (GCTaskILEWCTrainer.estimate_batch self) acc w = (r, w') →
  training_states w' = training_states w.
Proof.
  revert acc w. induction bs as [|b bs IH]; intros acc w.
  - by intros [= _ <-].
  - cbn [for_each]. unfold bind at 1.
    destruct (GCTaskILEWCTrainer.estimate_batch self acc b w) as [[acc1|e] w1] eqn:Hb.
    + intros Hrest. apply IH in Hrest. apply estimate_batch_frame in Hb. congruence.
    + intros [= _ <-]. by apply estimate_batch_frame in Hb.
Qed.

(** Either the pass ends normally and the history has grown by exactly one
    pair, at the end of both lists, or it raises and the history is the one
    it was handed. *)
Lemma pass_outcome (self : GCTrainer) (task_id : nat) (ds : dataset self)
    (w : world (state self)) :
  match GCTaskILEWCTrainer.processAfterTraining self task_id ds w with
  | (Ok _, w') =>
      ∃ F P, training_states w'
             = {| fishers := fishers (training_states w) ++ [F];
                  params := params (training_states w) ++ [P] |}
  | (Raise _, w') => training_states w' = training_states w
  end.
Proof.
  unfold GCTaskILEWCTrainer.processAfterTraining. run_calls.
  destruct (base_processAfterTraining self task_id ds (training_states w) (ext w))
    as [[[]|e1] t1]; cbn [ext training_states]; [|reflexivity].
  destruct (prepareLoader self ds (training_states w) t1) as [[bs|e2] t2];
    cbn [ext training_states]; [|reflexivity].
  destruct (for_each bs (GCTaskILEWCTrainer.estimate_batch self) _ _)
    as [[[[P F] tot]|e3] w1] eqn:Hloop;
    apply estimate_batches_frame in Hloop; cbn [training_states] in Hloop;
    [|exact Hloop].
  destruct (GCTaskILEWCTrainer.normalize tot (named_parameters self (ext w1)) F)
    as [F'|e4]; [|exact Hloop].
  cbn. rewrite Hloop. eauto.
Qed.

Lemma pass_raises (self : GCTrainer) (task_id : nat) (ds : dataset self)
    (w : world (state self)) (named0 : list (string * param))
    (os : list observation) (e : exn) (t3 : state self) :
  pass_of self task_id ds w = (named0, os, Some e, t3) →
  NoDup named0.*1 → Forall (λ o, steady named0 (seen_named o)) os →
  GCTaskILEWCTrainer.processAfterTraining self task_id ds w
  = (Raise e, {| ext := t3; training_states := training_states w |}).
Proof.
  intros Hpass Hnd Hos.
  unfold pass_of in Hpass. unfold GCTaskILEWCTrainer.processAfterTraining.
  revert Hpass. run_calls.
  destruct (base_processAfterTraining self task_id ds (training_states w) (ext w))
    as [[[]|e1] t1]; cbn [ext training_states].
  2:{ by intros [= <- <- <- <-]. }
  destruct (prepareLoader self ds (training_states w) t1) as [[bs|e2] t2];
    cbn [ext training_states].
  2:{ by intros [= <- <- <- <-]. }
  destruct (pass_calls self (training_states w) bs t2) as [[os' e'] t3'] eqn:Hcalls.
  intros [= <- -> -> ->].
  set (named0 := named_parameters self t1) in *.
  destruct (replay_closed named0 os
              (dict_of (λ p, zeros_like (data p)) named0)
              (dict_of (λ p, embed (zeros_like (data p))) named0) 0 Hnd Hos
              (zeros_cover _ Hnd))
    as (P' & F' & Hreplay & _).
  rewrite (estimate_loop self bs _ _
             {| ext := t2; training_states := training_states w |} os (Some e) t3
             Hcalls Hreplay).
  reflexivity.
Qed.

Lemma afterInference_frame (self : GCTrainer) (results : Results (predictions self))
    (b : batch self) (w w' : world (state self))
    (r : outcome (StepInfo (metric self))) :
  GCTaskILEWCTrainer.afterInference self results b w = (r, w') →
  training_states w' = training_states w.
Proof.
  unfold GCTaskILEWCTrainer.afterInference. run_calls.
  destruct (GCTaskILEWCTrainer.loss_reg self (named_parameters self (ext w))
              (training_states w)) as [penalty|e0]; [|by intros [= _ <-]].
  destruct (backward self _ (ext w)) as [[[]|e1] t1]; cbn [ext training_states];
    [|by intros [= _ <-]].
  destruct (step self t1) as [[[]|e2] t2]; cbn [ext training_states];
    [|by intros [= _ <-]].
  destruct (predictionFormat self results t2) as [[f|e3] t3];
    cbn [ext training_states]; [|by intros [= _ <-]].
  destruct (eval_fn self f b t3) as [[a|e4] t4]; cbn [ext training_states];
    by intros [= _ <-].
Qed.

(** ** The classes resolve to the same methods *)

Lemma afterInference_of_task (c : trainer_class) (self : GCTrainer) :
  afterInference_of c self = GCTaskILEWCTrainer.afterInference self.
Proof. by destruct c. Qed.

Lemma processAfterTraining_of_task (c : trainer_class) (self : GCTrainer) :
  processAfterTraining_of c self = GCTaskILEWCTrainer.processAfterTraining self.
Proof. by destruct c. Qed.

Lemma initTrainingStates_of_task (c : trainer_class) :
  initTrainingStates_of c = GCTaskILEWCTrainer.initTrainingStates.
Proof. by destruct c. Qed.

Lemma loss_reg_of_task (c : trainer_class) (self : GCTrainer) :
  loss_reg_of c self = GCTaskILEWCTrainer.loss_reg self.
Proof. by destruct c. Qed.

(** ** Numbers of the Fisher estimate *)

Lemma of_count_0 : of_count 0 = 0.
Proof. unfold of_count. cbn. apply Z2Qc_inj_0. Qed.


(** Without items there is nothing to sum either. *)
Lemma weighted_squares_no_items (os : list observation) (name : string) (k : nat) :
  total_items os = 0%nat → weighted_squares os name k = 0.
Proof.
  unfold weighted_squares. induction os as [|o os IH]; intros Htot.
  - apply qsum_nil.
  - rewrite total_items_cons in Htot.
    rewrite qsum_cons, IH by lia.
    replace (seen_items o) with 0%nat by lia. rewrite of_count_0. ring.
Qed.


Lemma all_zero (a : tensor) :
  (∀ k, (k < length a)%nat → a !!! k = 0) → a = replicate (length a) 0.
Proof.
  induction a as [|x a IH]; intros H; [reflexivity|].
  cbn. f_equal.
  - apply (H 0%nat). cbn. lia.
  - apply IH. intros k Hk. apply (H (S k)). cbn. lia.
Qed.


Lemma length_xtdiv_embed (a : tensor) (n : nat) :
  length (xtdiv_count (embed a) n) = length a.
Proof. unfold xtdiv_count, embed. by rewrite !length_fmap. Qed.


(** ** The scripted runs *)

Lemma scripted_pass_3_5 (lambda : Qc) (ts : TrainingStates) :
  pass_of (scripted lambda) 0 [batch_of_3; batch_of_5] (world_before ts)
  = (model_before, seen_3_5, None, state_after_5).
Proof. reflexivity. Qed.

Lemma model_before_names : NoDup model_before.*1.
Proof. by_evaluation. Qed.

Lemma scripted_pass_3_5_well_formed :
  well_formed_pass model_before seen_3_5 after_5.
Proof.
  split; [exact model_before_names|].
  split; [|reflexivity].
  repeat constructor.
Qed.

Lemma scripted_pass_empty (lambda : Qc) (ts : TrainingStates) :
  pass_of (scripted lambda) 0 [] (world_before ts)
  = (model_before, [], None, {| model_params := model_before; autograd := [] |}).
Proof. reflexivity. Qed.

Lemma scripted_pass_empty_well_formed :
  well_formed_pass model_before [] model_before.
Proof.
  split; [exact model_before_names|]. split; [constructor | reflexivity].
Qed.

Lemma scripted_pass_failing (lambda : Qc) (ts : TrainingStates) :
  pass_of (scripted lambda) 0 [batch_of_3; failing_batch; batch_of_5] (world_before ts)
  = (model_before, [ {| seen_items := 3; seen_named := after_3 |} ],
     Some (External 1),
     {| model_params := clear_grad <$> after_3; autograd := after_3 |}).
Proof. reflexivity. Qed.

(** ** Binary32 arithmetic *)
















(** ** The Fisher accumulator in binary32 *)












(** * The claims *)




(** C2, as the code has it.  When the Fisher pass sees no labeled item,
    [processAfterTraining] does not fail: the division of the accumulators
    by the item count is not guarded and raises nothing, the call ends
    normally, and the Fisher estimate it appends to the history holds NaN in
    every element of every parameter. *)
Theorem pass_without_items_appends_nan
    (c : trainer_class) (self : GCTrainer) (task_id : nat) (ds : dataset self)
    (w : world (state self)) (named0 : list (string * param))
    (os : list observation) (t3 : state self) :
  pass_of self task_id ds w = (named0, os, None, t3) →
  well_formed_pass named0 os (named_parameters self t3) →
  total_items os = 0%nat →
  ∃ P F,
    processAfterTraining_of c self task_id ds w
    = (Ok tt,
       {| ext := t3;
          training_states :=
            {| fishers := fishers (training_states w) ++ [F];
               params := params (training_states w) ++ [P] |} |})
    ∧ ∀ name p0, (name, p0) ∈ named0 →
        F !! name = Some (replicate (length (data p0)) NaN).
Proof.
  intros Hpass Hwf Htot. rewrite processAfterTraining_of_task.
  destruct (pass_completes self task_id ds w named0 os t3 Hpass Hwf)
    as (P & F & Hrun & HF & _).
  exists P, F. split; [exact Hrun|].
  intros name p0 Hin. destruct (HF name p0 Hin) as (a & Ha & Hla & Hea).
  rewrite Ha, Htot. f_equal.
  rewrite (all_zero a), <- Hla.
  - generalize (length a). intros n. induction n as [|n IH]; [reflexivity|].
    cbn. f_equal. exact IH.
  - intros k Hk. rewrite Hea by done. by apply weighted_squares_no_items.
Qed.

Lemma pass_without_items_witness :
  ∃ P F,
    processAfterTraining_of GCClassIL scripted_default 0 []
      (world_before GCClassILEWCTrainer.initTrainingStates)
    = (Ok tt,
       {| ext := {| model_params := model_before; autograd := [] |};
          training_states := {| fishers := [] ++ [F]; params := [] ++ [P] |} |})
    ∧ F !! "w" = Some [NaN; NaN].
Proof.
  destruct (pass_without_items_appends_nan
              GCClassIL scripted_default 0 []
              (world_before GCClassILEWCTrainer.initTrainingStates)
              model_before [] {| model_params := model_before; autograd := [] |}
              (scripted_pass_empty _ _) scripted_pass_empty_well_formed eq_refl)
    as (P & F & Hrun & HF).
  exists P, F. split; [exact Hrun|].
  exact (HF "w" w_before ltac:(left)).
Defined.

(** C2, as the specification words it, fails: on an empty task dataset the
    item count is zero, and [processAfterTraining] of every class returns
    normally with a Fisher estimate of NaN appended to the history. *)
Lemma empty_dataset_is_not_fatal :
  total_items [] = 0%nat
  ∧ ∀ c : trainer_class,
      processAfterTraining_of c scripted_default 0 []
        (world_before (initTrainingStates_of c))
      = (Ok tt,
         {| ext := {| model_params := model_before; autograd := [] |};
            training_states :=
              {| fishers := [ {[ "w" := [NaN; NaN]; "frozen" := [NaN] ]} ];
                 params := [ {[ "w" := [frac 0 1; frac 0 1];
                                "frozen" := [frac 0 1] ]} ] |} |}).
Proof.
  split; [reflexivity|]. intros c.
  rewrite processAfterTraining_of_task, initTrainingStates_of_task.
  by_evaluation.
Qed.

(** C6. The snapshot that [processAfterTraining] appends holds, for every
    parameter, the value the parameter has after the last batch of the pass:
    the entry is overwritten with a copy on every batch, so it is neither a
    mean over the batches nor the value from before the pass. *)
Theorem snapshot_is_value_after_last_batch
    (c : trainer_class) (self : GCTrainer) (task_id : nat) (ds : dataset self)
    (w : world (state self)) (named0 : list (string * param))
    (os : list observation) (t3 : state self) (o : observation) :
  pass_of self task_id ds w = (named0, os, None, t3) →
  well_formed_pass named0 os (named_parameters self t3) →
  list.last os = Some o →
  ∃ P F,
    processAfterTraining_of c self task_id ds w
    = (Ok tt,
       {| ext := t3;
          training_states :=
            {| fishers := fishers (training_states w) ++ [F];
               params := params (training_states w) ++ [P] |} |})
    ∧ ∀ name p, (name, p) ∈ seen_named o → P !! name = Some (data p).
Proof.
  intros Hpass Hwf Hlast. rewrite processAfterTraining_of_task.
  destruct (pass_completes self task_id ds w named0 os t3 Hpass Hwf)
    as (P & F & Hrun & _ & HP & _).
  exists P, F. split; [exact Hrun|].
  rewrite Hlast in HP. intros name p Hin. rewrite HP.
  destruct Hwf as (Hnd & Hos & _).
  assert (steady named0 (seen_named o)) as Hst.
  { rewrite list.Forall_forall in Hos. apply Hos. by apply last_Some_elem_of. }
  rewrite (param_of_Some _ _ p); [reflexivity| |exact Hin].
  by rewrite (steady_names _ _ Hst).
Qed.

Lemma snapshot_after_last_batch_witness :
  ∃ P F,
    processAfterTraining_of GCTaskIL scripted_default 0 [batch_of_3; batch_of_5]
      (world_before GCTaskILEWCTrainer.initTrainingStates)
    = (Ok tt,
       {| ext := state_after_5;
          training_states := {| fishers := [] ++ [F]; params := [] ++ [P] |} |})
    ∧ P !! "w" = Some [frac 1 1; frac 3 1]
    ∧ P !! "w" ≠ Some (data w_before).
Proof.
  destruct (snapshot_is_value_after_last_batch
              GCTaskIL scripted_default 0 [batch_of_3; batch_of_5]
              (world_before GCTaskILEWCTrainer.initTrainingStates)
              model_before seen_3_5 state_after_5
              {| seen_items := 5; seen_named := after_5 |}
              (scripted_pass_3_5 _ _) scripted_pass_3_5_well_formed eq_refl)
    as (P & F & Hrun & HP).
  exists P, F. split; [exact Hrun|].
  pose proof (HP "w" _ ltac:(left)) as Hw. cbn in Hw.
  split; [exact Hw|]. rewrite Hw.
  apply (bool_decide_eq_false_1 _). vm_compute. reflexivity.
Defined.




(** C9. When the Fisher pass fails, [processAfterTraining] raises and
    appends nothing: whatever it raises, the history is the one it was
    handed; and an exception of the base trainer's hook, of the loader, or
    of inference or backward on some batch is the exception it raises. *)
Theorem failed_pass_leaves_history_untouched
    (c : trainer_class) (self : GCTrainer) (task_id : nat) (ds : dataset self)
    (w : world (state self)) :
  (∀ e w', processAfterTraining_of c self task_id ds w = (Raise e, w') →
           training_states w' = training_states w)
  ∧ (∀ named0 os e t3,
       pass_of self task_id ds w = (named0, os, Some e, t3) →
       NoDup named0.*1 →
       Forall (λ o, steady named0 (seen_named o)) os →
       processAfterTraining_of c self task_id ds w
       = (Raise e, {| ext := t3; training_states := training_states w |})).
Proof.
  rewrite processAfterTraining_of_task. split.
  - intros e w' Hrun. pose proof (pass_outcome self task_id ds w) as Hout.
    by rewrite Hrun in Hout.
  - intros named0 os e t3. apply pass_raises.
Qed.

Lemma failed_pass_witness :
  processAfterTraining_of GCClassIL scripted_default 0
    [batch_of_3; failing_batch; batch_of_5] (world_before two_tasks)
  = (Raise (External 1),
     {| ext := {| model_params := clear_grad <$> after_3; autograd := after_3 |};
        training_states := two_tasks |})
  ∧ training_states
      {| ext := {| model_params := clear_grad <$> after_3; autograd := after_3 |};
         training_states := two_tasks |}
    = training_states (world_before two_tasks).
Proof.
  pose proof (failed_pass_leaves_history_untouched GCClassIL scripted_default 0
                [batch_of_3; failing_batch; batch_of_5] (world_before two_tasks))
    as [Hframe Hraise].
  assert (processAfterTraining_of GCClassIL scripted_default 0
            [batch_of_3; failing_batch; batch_of_5] (world_before two_tasks)
          = (Raise (External 1),
             {| ext := {| model_params := clear_grad <$> after_3;
                          autograd := after_3 |};
                training_states := two_tasks |})) as Hrun.
  { apply (Hraise model_before [ {| seen_items := 3; seen_named := after_3 |} ]).
    - exact (scripted_pass_failing _ _).
    - exact model_before_names.
    - repeat constructor. }
  split; [exact Hrun|]. exact (Hframe _ _ Hrun).
Defined.

(** C10. [afterInference] never modifies the history: whatever it returns
    or raises, both lists are the ones it was handed; only
    [processAfterTraining] changes them, by its two appends at the end of a
    pass that did not raise. *)
Theorem afterInference_keeps_history
    (c : trainer_class) (self : GCTrainer) (w : world (state self)) :
  (∀ results b r w',
     afterInference_of c self results b w = (r, w') →
     training_states w' = training_states w)
  ∧ (∀ task_id ds,
       match processAfterTraining_of c self task_id ds w with
       | (Ok _, w') =>
           ∃ F P, training_states w'
                  = {| fishers := fishers (training_states w) ++ [F];
                       params := params (training_states w) ++ [P] |}
       | (Raise _, w') => training_states w' = training_states w
       end).
Proof.
  rewrite afterInference_of_task, processAfterTraining_of_task. split.
  - intros results b r w'. apply afterInference_frame.
  - intros task_id ds. apply pass_outcome.
Qed.

Lemma scripted_training_step :
  afterInference_of GCTaskIL (scripted (frac 10000 1)) results_of_3 batch_of_3
    training_world
  = (Ok {| _num_items := 3; step_loss := Fin (frac 75 1); acc := 0%nat |},
     training_world_after).
Proof.
  apply (bool_decide_eq_true_1
           (_ = ((Ok {| _num_items := 3; step_loss := Fin (frac 75 1); acc := 0%nat |},
                  training_world_after)
                 : outcome (StepInfo nat) * world scripted_state))).
  vm_compute. reflexivity.
Qed.

Lemma afterInference_keeps_history_witness :
  afterInference_of GCTaskIL (scripted (frac 10000 1)) results_of_3 batch_of_3
    training_world
  = (Ok {| _num_items := 3; step_loss := Fin (frac 75 1); acc := 0%nat |},
     training_world_after)
  ∧ training_states training_world_after = training_states training_world.
Proof.
  split; [exact scripted_training_step|].
  exact (proj1 (afterInference_keeps_history GCTaskIL (scripted (frac 10000 1))
                  training_world)
           results_of_3 batch_of_3 _ _ scripted_training_step).
Defined.

Lemma scripted_task_completed :
  processAfterTraining_of GCTaskIL scripted_default 0 [batch_of_3; batch_of_5]
    (world_before (initTrainingStates_of GCTaskIL))
  = (Ok tt, {| ext := state_after_5; training_states := one_task |}).
Proof.
  apply (bool_decide_eq_true_1
           (_ = ((Ok tt, {| ext := state_after_5; training_states := one_task |})
                 : outcome unit * world scripted_state))).
  vm_compute. reflexivity.
Qed.

(** ** The history along a run *)

(** A step of the driver leaves the history alone, or completes a task and
    appends one pair. *)
Lemma driver_step_history (c : trainer_class) (self : GCTrainer)
    (p p' : nat * world (state self)) :
  driver_step c self p p' →
  (p'.1 = p.1 ∧ training_states p'.2 = training_states p.2)
  ∨ (p'.1 = S p.1
     ∧ ∃ F P, training_states p'.2
              = {| fishers := fishers (training_states p.2) ++ [F];
                   params := params (training_states p.2) ++ [P] |}).
Proof.
  intros Hstep. destruct Hstep as [n w w' results b r Hrun|n w w' task_id ds Hrun
                                  |n w w' task_id ds e Hrun|n w t']; cbn [fst snd].
  - left. split; [reflexivity|].
    rewrite afterInference_of_task in Hrun. by apply afterInference_frame in Hrun.
  - right. split; [reflexivity|].
    rewrite processAfterTraining_of_task in Hrun.
    pose proof (pass_outcome self task_id ds w) as Hout. by rewrite Hrun in Hout.
  - left. split; [reflexivity|].
    rewrite processAfterTraining_of_task in Hrun.
    pose proof (pass_outcome self task_id ds w) as Hout. by rewrite Hrun in Hout.
  - left. split; reflexivity.
Qed.

Lemma run_lengths (c : trainer_class) (self : GCTrainer)
    (p0 p : nat * world (state self)) :
  run_start c p0 → rtc (driver_step c self) p0 p →
  length (params (training_states p.2)) = p.1
  ∧ length (fishers (training_states p.2)) = p.1.
Proof.
  intros [Hn Hts] Hrun. revert p Hrun. apply rtc_ind_r.
  - rewrite Hts, Hn, initTrainingStates_of_task. split; reflexivity.
  - intros p p' Hrun Hstep [IHp IHf].
    destruct (driver_step_history _ _ _ _ Hstep) as [[Hsame Heq]|[Hnext (F & P & Heq)]].
    + rewrite Heq, Hsame. by split.
    + rewrite Heq, Hnext. cbn [params fishers]. rewrite !length_app. cbn. lia.
Qed.

Lemma run_grows (c : trainer_class) (self : GCTrainer)
    (p p' : nat * world (state self)) :
  rtc (driver_step c self) p p' →
  params (training_states p.2) `prefix_of` params (training_states p'.2)
  ∧ fishers (training_states p.2) `prefix_of` fishers (training_states p'.2)
  ∧ (p.1 ≤ p'.1)%nat.
Proof.
  induction 1 as [p|p p1 p' Hstep Hrun (IHp & IHf & IHn)].
  - repeat split; done.
  - destruct (driver_step_history _ _ _ _ Hstep) as [[Hsame Heq]|[Hnext (F & P & Heq)]].
    + rewrite <- Heq, <- Hsame. by repeat split.
    + rewrite Heq in IHp, IHf. cbn [params fishers] in IHp, IHf. repeat split.
      * etrans; [|exact IHp]. by apply prefix_app_r.
      * etrans; [|exact IHf]. by apply prefix_app_r.
      * lia.
Qed.

(** C4. At every point of a run, the two lists of the training states have
    as many entries as tasks have been completed: they start empty, a
    completed task appends one pair, and what a later point of the run holds
    extends what an earlier point held, entries and order unchanged. *)
Theorem history_length_counts_completed_tasks
    (c : trainer_class) (self : GCTrainer) (p0 p p' : nat * world (state self)) :
  run_start c p0 →
  rtc (driver_step c self) p0 p →
  rtc (driver_step c self) p p' →
  length (params (training_states p.2)) = p.1
  ∧ length (fishers (training_states p.2)) = p.1
  ∧ length (params (training_states p'.2)) = p'.1
  ∧ length (fishers (training_states p'.2)) = p'.1
  ∧ params (training_states p.2) `prefix_of` params (training_states p'.2)
  ∧ fishers (training_states p.2) `prefix_of` fishers (training_states p'.2)
  ∧ (p.1 ≤ p'.1)%nat.
Proof.
  intros Hstart Hrun Hlater.
  destruct (run_lengths c self p0 p Hstart Hrun) as [Hp Hf].
  destruct (run_lengths c self p0 p' Hstart ltac:(by etrans))
    as [Hp' Hf'].
  destruct (run_grows c self p p' Hlater) as (Hgp & Hgf & Hn).
  repeat split; assumption.
Qed.

(** A scripted run that completes its first task. *)
Lemma history_length_witness :
  length (params (training_states (world_before (initTrainingStates_of GCTaskIL)))) = 0%nat
  ∧ length (params one_task) = 1%nat
  ∧ length (fishers one_task) = 1%nat.
Proof.
  pose proof (history_length_counts_completed_tasks GCTaskIL scripted_default
                (0%nat, world_before (initTrainingStates_of GCTaskIL))
                (0%nat, world_before (initTrainingStates_of GCTaskIL))
                (1%nat, {| ext := state_after_5; training_states := one_task |})
                (conj eq_refl eq_refl)
                (rtc_refl _ _)
                (rtc_once _ _
                   (step_task_completed GCTaskIL scripted_default 0 _ _ 0
                      [batch_of_3; batch_of_5] scripted_task_completed)))
    as (H0 & _ & H1 & H2 & _).
  exact (conj H0 (conj H1 H2)).
Defined.

(** C5. With an empty history the loop of [afterInference] yields exactly
    0, for every model and every [lamb], and [afterInference] is the training
    step on the task loss alone. *)
Theorem empty_history_adds_no_penalty
    (c : trainer_class) (self : GCTrainer) (results : Results (predictions self))
    (b : batch self) (w : world (state self)) :
  no_history (training_states w) →
  loss_reg_of c self (named_parameters self (ext w)) (training_states w) = Ok (Fin 0)
  ∧ afterInference_of c self results b w = plain_step self results b w.
Proof.
  intros [Hp Hf]. rewrite loss_reg_of_task, afterInference_of_task.
  assert (GCTaskILEWCTrainer.loss_reg self (named_parameters self (ext w))
            (training_states w) = Ok (Fin 0)) as Hzero.
  { unfold GCTaskILEWCTrainer.loss_reg. rewrite Hp. reflexivity. }
  split; [exact Hzero|].
  rewrite (task_afterInference_penalized self results b w (Fin 0) Hzero).
  unfold penalized_step, plain_step. cbn [xadd]. by rewrite Qcplus_0_r.
Qed.

Lemma empty_history_witness :
  loss_reg_of GCTimeIL scripted_default model_before GCTimeILEWCTrainer.initTrainingStates
  = Ok (Fin 0)
  ∧ afterInference_of GCTimeIL scripted_default results_of_3 batch_of_3
      (world_before GCTimeILEWCTrainer.initTrainingStates)
    = plain_step scripted_default results_of_3 batch_of_3
        (world_before GCTimeILEWCTrainer.initTrainingStates).
Proof.
  exact (empty_history_adds_no_penalty GCTimeIL scripted_default results_of_3
           batch_of_3 (world_before GCTimeILEWCTrainer.initTrainingStates)
           (conj eq_refl eq_refl)).
Defined.

(** C7. The four classes compute the same penalty and the same Fisher
    estimate and snapshot from the same inputs: the domain- and
    time-incremental classes take every method from the class-incremental
    one, and [afterInference], [initTrainingStates] and
    [processAfterTraining] of the task-incremental class are the same
    functions as those of the class-incremental class. *)
Theorem trainer_classes_share_their_methods :
  (∀ (c c' : trainer_class) (self : GCTrainer),
     afterInference_of c self = afterInference_of c' self
     ∧ initTrainingStates_of c = initTrainingStates_of c'
     ∧ processAfterTraining_of c self = processAfterTraining_of c' self
     ∧ loss_reg_of c self = loss_reg_of c' self)
  ∧ (GCDomainILEWCTrainer.afterInference = GCClassILEWCTrainer.afterInference
     ∧ GCDomainILEWCTrainer.initTrainingStates = GCClassILEWCTrainer.initTrainingStates
     ∧ GCDomainILEWCTrainer.processAfterTraining
       = GCClassILEWCTrainer.processAfterTraining)
  ∧ (GCTimeILEWCTrainer.afterInference = GCClassILEWCTrainer.afterInference
     ∧ GCTimeILEWCTrainer.initTrainingStates = GCClassILEWCTrainer.initTrainingStates
     ∧ GCTimeILEWCTrainer.processAfterTraining
       = GCClassILEWCTrainer.processAfterTraining)
  ∧ (GCTaskILEWCTrainer.afterInference = GCClassILEWCTrainer.afterInference
     ∧ GCTaskILEWCTrainer.initTrainingStates = GCClassILEWCTrainer.initTrainingStates
     ∧ GCTaskILEWCTrainer.processAfterTraining
       = GCClassILEWCTrainer.processAfterTraining).
Proof.
  split.
  - intros c c' self.
    rewrite !afterInference_of_task, !initTrainingStates_of_task,
      !processAfterTraining_of_task, !loss_reg_of_task.
    repeat split.
  - repeat split.
Qed.




(** * Further properties of the code *)

(** ** When the loop of [afterInference] raises *)

Lemma loss_reg_covered (self : GCTrainer) (named : list (string * param))
    (ts : TrainingStates) :
  history_covers named ts →
  GCTaskILEWCTrainer.loss_reg self named ts
  = Ok (xsum (λ '(P, F), entry_penalty (lamb self) named P F)
             (zip (params ts) (fishers ts))).
Proof.
  intros Hc. unfold GCTaskILEWCTrainer.loss_reg. cbv zeta.
  rewrite loss_reg_outer by exact Hc. by rewrite xadd_0_l.
Qed.

(** A parameter whose entries are missing or of another shape stops the
    loop over the parameters. *)
Lemma loss_reg_inner_ok (self : GCTrainer) (_param : gmap string tensor)
    (_fisher : gmap string xtensor) (named : list (string * param))
    (acc v : xscalar) :
  fold_outcome
    (λ loss_reg '(name, p),
       let? f := getitem _fisher name in
       let? snapshot := getitem _param name in
       let? d := tsub (data p) snapshot in
       let? l := xtmul (xtscale (lamb self) f) (embed (tsquare d)) in
       Ok (xadd loss_reg (xtsum l)))
    named acc = Ok v →
  covers named _param ∧ covers named _fisher.
Proof.
  revert acc. induction named as [|[name p] named IH]; intros acc Hrun.
  - split; constructor.
  - cbn [fold_outcome] in Hrun. unfold getitem in Hrun.
    destruct (_fisher !! name) as [f|] eqn:Hf; [|done]. cbn [and_then] in Hrun.
    destruct (_param !! name) as [s|] eqn:Hs; [|done]. cbn [and_then] in Hrun.
    unfold tsub, elementwise in Hrun.
    destruct (decide (length (data p) = length s)) as [Hls|]; [|done].
    cbn [and_then] in Hrun. unfold xtmul, elementwise in Hrun.
    destruct (decide (length (xtscale (lamb self) f)
                      = length (embed (tsquare (zip_with Qcminus (data p) s)))))
      as [Hlf|]; [|done].
    cbn [and_then] in Hrun. apply IH in Hrun as [HP HF].
    unfold xtscale, embed, tsquare in Hlf.
    rewrite !length_fmap, length_zip_with in Hlf.
    split; constructor; try assumption; cbn.
    + by rewrite Hs.
    + rewrite Hf. lia.
Qed.

Lemma loss_reg_outer_ok (self : GCTrainer) (named : list (string * param))
    (hist : list (gmap string tensor * gmap string xtensor)) (acc v : xscalar) :
  fold_outcome
    (λ loss_reg '(_param, _fisher),
       fold_outcome
         (λ loss_reg '(name, p),
            let? f := getitem _fisher name in
            let? snapshot := getitem _param name in
            let? d := tsub (data p) snapshot in
            let? l := xtmul (xtscale (lamb self) f) (embed (tsquare d)) in
            Ok (xadd loss_reg (xtsum l)))
         named loss_reg)
    hist acc = Ok v →
  Forall (λ '(P, F), covers named P ∧ covers named F) hist.
Proof.
  revert acc. induction hist as [|[P F] hist IH]; intros acc Hrun; [constructor|].
  cbn [fold_outcome] in Hrun.
  match type of Hrun with
  | match ?inner with _ => _ end = _ => destruct inner as [acc'|] eqn:Hinner; [|done]
  end.
  constructor; [by apply loss_reg_inner_ok in Hinner | by apply IH in Hrun].
Qed.

Lemma afterInference_raises (self : GCTrainer) (results : Results (predictions self))
    (b : batch self) (w : world (state self)) (e : exn) :
  GCTaskILEWCTrainer.loss_reg self (named_parameters self (ext w)) (training_states w)
    = Raise e →
  GCTaskILEWCTrainer.afterInference self results b w = (Raise e, w).
Proof.
  intros Hp. unfold GCTaskILEWCTrainer.afterInference.
  unfold bind at 1. cbn [get]. unfold bind at 1. unfold lift_outcome.
  rewrite Hp. reflexivity.
Qed.

(** X1. When a pair of the history that the loop of [afterInference]
    visits lacks the Fisher entry or the snapshot entry of a parameter that
    the live model names, the loop raises; a name missing from the first
    pair at the first parameter is a [KeyError] of that name.  Whatever the
    loop raises, [afterInference] raises it before any backward pass or
    optimizer step: the state is the one it was called on. *)
Theorem afterInference_raises_on_missing_entry
    (c : trainer_class) (self : GCTrainer) :
  (∀ named ts P F name p,
     (P, F) ∈ zip (params ts) (fishers ts) →
     (name, p) ∈ named →
     F !! name = None ∨ P !! name = None →
     ∃ e, loss_reg_of c self named ts = Raise e)
  ∧ (∀ results b w e,
       loss_reg_of c self (named_parameters self (ext w)) (training_states w)
         = Raise e →
       afterInference_of c self results b w = (Raise e, w))
  ∧ (∀ name p rest P F Ps Fs,
       F !! name = None ∨ P !! name = None →
       loss_reg_of c self ((name, p) :: rest) {| fishers := F :: Fs; params := P :: Ps |}
       = Raise (KeyError name)).
Proof.
  rewrite loss_reg_of_task, afterInference_of_task. repeat split.
  - intros named ts P F name p Hin Hp Hmiss.
    destruct (GCTaskILEWCTrainer.loss_reg self named ts) as [v|e] eqn:Hv; [|eauto].
    exfalso. unfold GCTaskILEWCTrainer.loss_reg in Hv. cbv zeta in Hv.
    apply loss_reg_outer_ok in Hv. rewrite list.Forall_forall in Hv.
    destruct (Hv _ Hin) as [HP HF].
    destruct (covers_lookup _ _ _ _ HP Hp) as (s & Hs & _).
    destruct (covers_lookup _ _ _ _ HF Hp) as (f & Hf & _).
    destruct Hmiss; congruence.
  - intros results b w e. apply afterInference_raises.
  - intros name p rest P F Ps Fs Hmiss.
    unfold GCTaskILEWCTrainer.loss_reg. cbn [params fishers zip zip_with fold_outcome].
    unfold getitem. destruct (F !! name) as [f|]; [|reflexivity].
    destruct Hmiss as [|Hp]; [done|]. rewrite Hp. reflexivity.
Qed.

(** ** A NaN among the Fisher values *)

Lemma xsum_nan {A : Type} (f : A → xscalar) (l : list A) (a : A) :
  a ∈ l → f a = NaN → xsum f l = NaN.
Proof.
  intros Hin Ha. induction l as [|x l IH]; [by inversion Hin|].
  rewrite xsum_cons. apply elem_of_cons in Hin as [<-|Hin].
  - by rewrite Ha.
  - rewrite IH by done. by destruct (f x).
Qed.

(** X4. One NaN among the Fisher values that the loop reads makes the
    penalty NaN: [afterInference] then backpropagates a NaN loss and
    reports it, whatever the task loss is. *)
Theorem nan_fisher_makes_penalty_nan
    (c : trainer_class) (self : GCTrainer) (results : Results (predictions self))
    (b : batch self) (w : world (state self))
    (P : gmap string tensor) (F : gmap string xtensor)
    (name : string) (p : param) (f : xtensor) :
  history_covers (named_parameters self (ext w)) (training_states w) →
  (P, F) ∈ zip (params (training_states w)) (fishers (training_states w)) →
  (name, p) ∈ named_parameters self (ext w) →
  F !! name = Some f → NaN ∈ f →
  loss_reg_of c self (named_parameters self (ext w)) (training_states w) = Ok NaN
  ∧ afterInference_of c self results b w = penalized_step self NaN results b w
  ∧ xadd (Fin (loss results)) NaN = NaN.
Proof.
  intros Hc Hin Hp Hf Hnan. rewrite loss_reg_of_task, afterInference_of_task.
  assert (GCTaskILEWCTrainer.loss_reg self (named_parameters self (ext w))
            (training_states w) = Ok NaN) as Hloss.
  { rewrite loss_reg_covered by done. f_equal.
    apply (xsum_nan _ _ (P, F) Hin). unfold entry_penalty.
    apply (xsum_nan _ _ (name, p) Hp).
    unfold history_covers in Hc. rewrite list.Forall_forall in Hc.
    destruct (Hc _ Hin) as [_ HF].
    destruct (covers_lookup _ _ _ _ HF Hp) as (f' & Hf' & Hlen).
    rewrite Hf in Hf'. injection Hf' as <-.
    apply list_elem_of_lookup_1 in Hnan as [k Hk].
    apply (xsum_nan _ _ k).
    - apply elem_of_seq. apply lookup_lt_Some in Hk. lia.
    - assert (F !!! name = f) as ->.
      { unfold lookup_total, map_lookup_total. by rewrite Hf. }
      rewrite (list_lookup_total_correct _ _ _ Hk). reflexivity. }
  split; [exact Hloss|]. split; [|reflexivity].
  by apply task_afterInference_penalized.
Qed.

(** ** What a completed pass leaves for the next training step *)

(** The last observation of a pass that did not raise shows the parameters
    of the state the pass ends in. *)
Lemma pass_calls_last (self : GCTrainer) (ts : TrainingStates)
    (bs : list (batch self)) (t t3 : state self) (os : list observation)
    (o : observation) :
  pass_calls self ts bs t = (os, None, t3) → list.last os = Some o →
  seen_named o = named_parameters self t3.
Proof.
  revert t os. induction bs as [|b bs IH]; intros t os Hcalls Hlast.
  - cbn in Hcalls. by simplify_eq.
  - cbn [pass_calls] in Hcalls.
    destruct (batch_calls self ts b t) as [[o1|e1] t1] eqn:Hb; [|done].
    destruct (pass_calls self ts bs t1) as [[os' e'] t''] eqn:Hrest.
    injection Hcalls as <- -> ->.
    destruct os' as [|o2 os'].
    + cbn in Hlast. injection Hlast as <-.
      destruct bs as [|b' bs].
      * cbn in Hrest. injection Hrest as <-.
        revert Hb. unfold batch_calls. run_calls.
        destruct (zero_grad self t) as [[[]|] ?]; [|done].
        destruct (inference self b ts _) as [[r|] ?]; [|done].
        destruct (backward self _ _) as [[[]|] ?]; [|done].
        by intros [= <- <-].
      * cbn [pass_calls] in Hrest.
        destruct (batch_calls self ts b' t1) as [[?|?] ?]; [|done].
        by destruct (pass_calls self ts bs _) as [[? ?] ?].
    + apply (IH t1 (o2 :: os') Hrest). exact Hlast.
Qed.

Lemma pass_of_last (self : GCTrainer) (task_id : nat) (ds : dataset self)
    (w : world (state self)) (named0 : list (string * param))
    (os : list observation) (t3 : state self) (o : observation) :
  pass_of self task_id ds w = (named0, os, None, t3) → list.last os = Some o →
  seen_named o = named_parameters self t3.
Proof.
  unfold pass_of.
  destruct (base_processAfterTraining self task_id ds _ _) as [[[]|] t1]; [|done].
  destruct (prepareLoader self ds _ t1) as [[bs|] t2]; [|done].
  destruct (pass_calls self (training_states w) bs t2) as [[os' e'] t3'] eqn:Hcalls.
  intros Heq Hlast. simplify_eq. eapply pass_calls_last; eauto.
Qed.

Lemma same_shapes_elem (named0 named : list (string * param)) (name : string)
    (p : param) :
  same_shapes named0 named → (name, p) ∈ named →
  ∃ p0, (name, p0) ∈ named0 ∧ length (data p) = length (data p0).
Proof.
  induction 1 as [|[n0 p0] [n p'] r0 r [Hn Hl] _ IH]; intros Hin;
    [by inversion Hin|].
  cbn in Hn, Hl. apply elem_of_cons in Hin as [Heq|Hin].
  - simplify_eq. exists p0. split; [left | done].
  - destruct (IH Hin) as (q & Hq & Hlq). exists q. split; [by right | done].
Qed.

(** What a completed pass appends covers the model it ends with, and holds
    the values of that model when there was a batch. *)
Lemma pass_completes_fit (self : GCTrainer) (task_id : nat) (ds : dataset self)
    (w : world (state self)) (named0 : list (string * param))
    (os : list observation) (t3 : state self) :
  pass_of self task_id ds w = (named0, os, None, t3) →
  well_formed_pass named0 os (named_parameters self t3) →
  same_shapes named0 (named_parameters self t3) →
  ∃ P F,
    GCTaskILEWCTrainer.processAfterTraining self task_id ds w
    = (Ok tt, {| ext := t3; training_states := with_entry (training_states w) P F |})
    ∧ covers (named_parameters self t3) P
    ∧ covers (named_parameters self t3) F
    ∧ (os ≠ [] → Forall (λ '(name, p), P !! name = Some (data p))
                        (named_parameters self t3)).
Proof.
  intros Hpass Hwf Hshapes.
  destruct (pass_completes self task_id ds w named0 os t3 Hpass Hwf)
    as (P & F & Hrun & HF & HP & _).
  destruct Hwf as (Hnd & Hos & Hfinal).
  assert (NoDup (named_parameters self t3).*1) as Hnd3 by (by rewrite Hfinal).
  assert (os ≠ [] → Forall (λ '(name, p), P !! name = Some (data p))
                           (named_parameters self t3)) as HPlast.
  { intros Hne. destruct (list.last os) as [o|] eqn:Hlast;
      [|by apply last_None in Hlast].
    rewrite <- (pass_of_last _ _ _ _ _ _ _ _ Hpass Hlast).
    apply list.Forall_forall. intros [name p] Hin. rewrite HP.
    rewrite (param_of_Some _ name p); [reflexivity| |exact Hin].
    by rewrite (pass_of_last _ _ _ _ _ _ _ _ Hpass Hlast). }
  exists P, F. split; [exact Hrun|]. split; [|split; [|exact HPlast]].
  - unfold covers. apply list.Forall_forall. intros [name p] Hin.
    destruct os as [|o1 os'].
    + cbn in HP. subst P.
      destruct (same_shapes_elem _ _ _ _ Hshapes Hin) as (p0 & Hin0 & Hl).
      rewrite dict_of_lookup, (param_of_Some _ _ _ Hnd Hin0) by done. cbn.
      unfold zeros_like. by rewrite length_replicate.
    + assert (o1 :: os' ≠ []) as Hne by done. specialize (HPlast Hne).
      rewrite list.Forall_forall in HPlast. by rewrite (HPlast _ Hin).
  - unfold covers. apply list.Forall_forall. intros [name p] Hin.
    destruct (same_shapes_elem _ _ _ _ Hshapes Hin) as (p0 & Hin0 & Hl).
    destruct (HF name p0 Hin0) as (a & Ha & Hla & _).
    rewrite Ha, length_xtdiv_embed. congruence.
Qed.

Lemma history_fits_snoc (named : list (string * param)) (ts : TrainingStates)
    (P : gmap string tensor) (F : gmap string xtensor) :
  history_fits named ts → covers named P → covers named F →
  history_fits named (with_entry ts P F).
Proof.
  intros (Hlen & HFs & HPs) HP HF. unfold history_fits, with_entry.
  cbn [params fishers]. rewrite !length_app, Hlen.
  split; [reflexivity|]. split; apply Forall_app; split; try done; by constructor.
Qed.

(** X7. A pass that completes on a model of steady architecture keeps the
    history fit for the model it ends with: the pair it appends has an entry
    of the right shape for every parameter, so the loop of the next
    [afterInference] on that model ends normally, with no [KeyError] and no
    shape error. *)
Theorem completed_pass_keeps_the_history_fit
    (c : trainer_class) (self : GCTrainer) (task_id : nat) (ds : dataset self)
    (w : world (state self)) (named0 : list (string * param))
    (os : list observation) (t3 : state self) :
  pass_of self task_id ds w = (named0, os, None, t3) →
  well_formed_pass named0 os (named_parameters self t3) →
  same_shapes named0 (named_parameters self t3) →
  history_fits (named_parameters self t3) (training_states w) →
  ∃ w',
    processAfterTraining_of c self task_id ds w = (Ok tt, w')
    ∧ ext w' = t3
    ∧ history_fits (named_parameters self (ext w')) (training_states w')
    ∧ ∃ v, loss_reg_of c self (named_parameters self (ext w')) (training_states w')
           = Ok v.
Proof.
  intros Hpass Hwf Hshapes Hfit.
  rewrite processAfterTraining_of_task, loss_reg_of_task.
  destruct (pass_completes_fit self task_id ds w named0 os t3 Hpass Hwf Hshapes)
    as (P & F & Hrun & HP & HF & _).
  eexists. split; [exact Hrun|]. cbn [ext training_states].
  split; [reflexivity|].
  pose proof (history_fits_snoc _ _ _ _ Hfit HP HF) as Hfit'.
  split; [exact Hfit'|]. rewrite task_loss_reg_closed by done. eauto.
Qed.

(** X9. When the loader yields no batch, the snapshot that
    [processAfterTraining] appends holds zeros of each parameter's shape,
    not the values of the parameters: the dictionary is initialised with
    [zeros_like] and only the loop over the batches overwrites it. *)
Theorem pass_without_batches_snapshots_zeros
    (c : trainer_class) (self : GCTrainer) (task_id : nat) (ds : dataset self)
    (w : world (state self)) (named0 : list (string * param)) (t3 : state self) :
  pass_of self task_id ds w = (named0, [], None, t3) →
  well_formed_pass named0 [] (named_parameters self t3) →
  ∃ P F,
    processAfterTraining_of c self task_id ds w
    = (Ok tt, {| ext := t3; training_states := with_entry (training_states w) P F |})
    ∧ ∀ name p0, (name, p0) ∈ named0 → P !! name = Some (zeros_like (data p0)).
Proof.
  intros Hpass Hwf. rewrite processAfterTraining_of_task.
  destruct (pass_completes self task_id ds w named0 [] t3 Hpass Hwf)
    as (P & F & Hrun & _ & HP & _).
  exists P, F. split; [exact Hrun|]. cbn in HP. subst P.
  intros name p0 Hin. destruct Hwf as (Hnd & _).
  by rewrite dict_of_lookup, (param_of_Some _ _ _ Hnd Hin).
Qed.

(** ** What the methods do not call *)

(** X10. The Fisher pass takes no optimizer step and evaluates no metric:
    [processAfterTraining] is the same whatever [optimizer.step],
    [predictionFormat] and [eval_fn] do.  [afterInference] clears no
    gradient, runs no inference, makes no loader and does not call the base
    trainer's hook: it is the same whatever those do. *)
Theorem methods_do_not_call_the_other_side
    (c : trainer_class) (self : GCTrainer)
    (step' : M (state self) unit)
    (format' : Results (predictions self) → M (state self) (formatted self))
    (eval' : formatted self → batch self → M (state self) (metric self))
    (zero_grad' : M (state self) unit)
    (inference' : batch self → TrainingStates → M (state self) (Results (predictions self)))
    (loader' : dataset self → TrainingStates → M (state self) (list (batch self)))
    (hook' : nat → dataset self → TrainingStates → M (state self) unit) :
  processAfterTraining_of c (with_training_side self step' format' eval')
  = processAfterTraining_of c self
  ∧ afterInference_of c (with_estimation_side self zero_grad' inference' loader' hook')
    = afterInference_of c self.
Proof. split; by destruct c. Qed.

(** ** The Fisher pass and the history *)

(** Two worlds that differ in the training states only, for a trainer whose
    inference does not read them: the loop over the batches ends the same
    way in both. *)
Lemma estimate_batches_ignore_history (self : GCTrainer) (ts1 ts2 : TrainingStates)
    (bs : list (batch self))
    (acc : gmap string tensor * gmap string xtensor * nat) (t : state self) :
  (∀ b t, inference self b ts1 t = inference self b ts2 t) →
  ∃ r t',
    for_each bs (GCTaskILEWCTrainer.estimate_batch self) acc
      {| ext := t; training_states := ts1 |}
    = (r, {| ext := t'; training_states := ts1 |})
    ∧ for_each bs (GCTaskILEWCTrainer.estimate_batch self) acc
        {| ext := t; training_states := ts2 |}
      = (r, {| ext := t'; training_states := ts2 |}).
Proof.
  intros Hinf. revert acc t. induction bs as [|b bs IH]; intros acc t.
  - exists (Ok acc), t. split; reflexivity.
  - cbn [for_each]. unfold GCTaskILEWCTrainer.estimate_batch at 1 3.
    destruct acc as [[P F] tot]. run_calls.
    destruct (zero_grad self t) as [[[]|e1] t1]; cbn [ext training_states];
      [|by exists (Raise e1), t1].
    rewrite <- (Hinf b t1).
    destruct (inference self b ts1 t1) as [[res|e2] t2]; cbn [ext training_states];
      [|by exists (Raise e2), t2].
    destruct (backward self (Fin (loss res)) t2) as [[[]|e3] t3];
      cbn [ext training_states]; [|by exists (Raise e3), t3].
    destruct (GCTaskILEWCTrainer.accumulate (num_items self b)
                (named_parameters self t3) (P, F)) as [[P1 F1]|e4];
      [|by exists (Raise e4), t3].
    apply IH.
Qed.

Lemma pass_ignores_history (self : GCTrainer) (task_id : nat) (ds : dataset self)
    (t : state self) (ts1 ts2 : TrainingStates) :
  (∀ b t, inference self b ts1 t = inference self b ts2 t) →
  (∀ t, base_processAfterTraining self task_id ds ts1 t
        = base_processAfterTraining self task_id ds ts2 t) →
  (∀ t, prepareLoader self ds ts1 t = prepareLoader self ds ts2 t) →
  (∃ e t',
     GCTaskILEWCTrainer.processAfterTraining self task_id ds
       {| ext := t; training_states := ts1 |}
     = (Raise e, {| ext := t'; training_states := ts1 |})
     ∧ GCTaskILEWCTrainer.processAfterTraining self task_id ds
         {| ext := t; training_states := ts2 |}
       = (Raise e, {| ext := t'; training_states := ts2 |}))
  ∨ (∃ P F t',
       GCTaskILEWCTrainer.processAfterTraining self task_id ds
         {| ext := t; training_states := ts1 |}
       = (Ok tt, {| ext := t'; training_states := with_entry ts1 P F |})
       ∧ GCTaskILEWCTrainer.processAfterTraining self task_id ds
           {| ext := t; training_states := ts2 |}
         = (Ok tt, {| ext := t'; training_states := with_entry ts2 P F |})).
Proof.
  intros Hinf Hhook Hloader.
  unfold GCTaskILEWCTrainer.processAfterTraining. run_calls.
  rewrite <- (Hhook t).
  destruct (base_processAfterTraining self task_id ds ts1 t) as [[[]|e1] t1];
    cbn [ext training_states]; [|left; by exists e1, t1].
  rewrite <- (Hloader t1).
  destruct (prepareLoader self ds ts1 t1) as [[bs|e2] t2];
    cbn [ext training_states]; [|left; by exists e2, t2].
  destruct (estimate_batches_ignore_history self ts1 ts2 bs
              (dict_of (λ p, zeros_like (data p)) (named_parameters self t1),
               dict_of (λ p, embed (zeros_like (data p))) (named_parameters self t1),
               0%nat) t2 Hinf) as (r & t3 & Hr1 & Hr2).
  rewrite Hr1, Hr2. destruct r as [[[P F] tot]|e3]; [|left; by exists e3, t3].
  cbn [ext training_states].
  destruct (GCTaskILEWCTrainer.normalize tot (named_parameters self t3) F)
    as [F'|e4]; [|left; by exists e4, t3].
  right. exists P, F', t3. split; reflexivity.
Qed.

(** X11. The Fisher pass of a task-incremental trainer does not depend on
    the history: [inference] of the class does not read the training states
    and the pass backpropagates the task loss alone, so with a base hook
    and a loader that do not read them either, two calls that differ in the
    history only raise the same exception, or append the same snapshot and
    the same Fisher estimate and leave the collaborators in the same
    state. *)
Theorem fisher_pass_ignores_the_history
    (self : GCTrainer) (fw : Forward self) (task_id : nat) (ds : dataset self)
    (t : state self) (ts1 ts2 : TrainingStates) :
  (∀ t, base_processAfterTraining self task_id ds ts1 t
        = base_processAfterTraining self task_id ds ts2 t) →
  (∀ t, prepareLoader self ds ts1 t = prepareLoader self ds ts2 t) →
  (∃ e t',
     GCTaskILEWCTrainer.processAfterTraining (task_incremental self fw) task_id ds
       {| ext := t; training_states := ts1 |}
     = (Raise e, {| ext := t'; training_states := ts1 |})
     ∧ GCTaskILEWCTrainer.processAfterTraining (task_incremental self fw) task_id ds
         {| ext := t; training_states := ts2 |}
       = (Raise e, {| ext := t'; training_states := ts2 |}))
  ∨ (∃ P F t',
       GCTaskILEWCTrainer.processAfterTraining (task_incremental self fw) task_id ds
         {| ext := t; training_states := ts1 |}
       = (Ok tt, {| ext := t'; training_states := with_entry ts1 P F |})
       ∧ GCTaskILEWCTrainer.processAfterTraining (task_incremental self fw) task_id ds
           {| ext := t; training_states := ts2 |}
         = (Ok tt, {| ext := t'; training_states := with_entry ts2 P F |})).
Proof.
  intros Hhook Hloader.
  apply (pass_ignores_history (task_incremental self fw) task_id ds t ts1 ts2).
  - reflexivity.
  - exact Hhook.
  - exact Hloader.
Qed.

(** ** Construction *)

(** X12. [self.lamb] is the value of the keyword [lamb] when the trainer is
    constructed with one, and 10000 otherwise; no other keyword changes
    it. *)
Theorem lamb_is_the_keyword_or_10000 (kwargs : gmap string Qc) :
  (∀ l, init_lamb (<["lamb" := l]> kwargs) = l)
  ∧ init_lamb (delete "lamb" kwargs) = Qc_of_Z 10000
  ∧ (∀ k v, k ≠ "lamb" → init_lamb (<[k := v]> kwargs) = init_lamb kwargs).
Proof.
  unfold init_lamb. repeat split.
  - intros l. by rewrite lookup_insert_eq.
  - by rewrite lookup_delete_eq.
  - intros k v Hk. by rewrite lookup_insert_ne.
Qed.

(** ** The further properties on the scripted trainer *)

Lemma afterInference_raises_witness :
  loss_reg_of GCTaskIL (scripted (frac 10000 1)) live_v two_tasks
  = Raise (KeyError "v")
  ∧ afterInference_of GCTaskIL (scripted (frac 10000 1)) results_of_3 batch_of_3
      {| ext := {| model_params := live_v; autograd := [] |};
         training_states := two_tasks |}
    = (Raise (KeyError "v"),
       {| ext := {| model_params := live_v; autograd := [] |};
          training_states := two_tasks |}).
Proof.
  pose proof (afterInference_raises_on_missing_entry GCTaskIL
                (scripted (frac 10000 1))) as (_ & Hraises & Hkey).
  assert (loss_reg_of GCTaskIL (scripted (frac 10000 1)) live_v two_tasks
          = Raise (KeyError "v")) as Hraise.
  { apply (Hkey "v" _ [] _ _ _ _). left. reflexivity. }
  split; [exact Hraise|]. apply Hraises. exact Hraise.
Defined.

Lemma nan_fisher_witness :
  loss_reg_of GCTaskIL scripted_default model_before nan_task = Ok NaN.
Proof.
  apply (nan_fisher_makes_penalty_nan GCTaskIL scripted_default results_of_3
           batch_of_3 (world_before nan_task)
           {[ "w" := [frac 0 1; frac 0 1]; "frozen" := [frac 0 1] ]}
           {[ "w" := [NaN; NaN]; "frozen" := [NaN] ]}
           "w" w_before [NaN; NaN]).
  - repeat constructor.
  - left.
  - left.
  - reflexivity.
  - left.
Defined.

Lemma model_shapes_after_5 : same_shapes model_before after_5.
Proof. repeat constructor. Qed.

Lemma no_history_fits_after_5 :
  history_fits after_5 GCTaskILEWCTrainer.initTrainingStates.
Proof. split; [reflexivity|]. split; constructor. Qed.

Lemma completed_pass_fit_witness :
  ∃ w',
    processAfterTraining_of GCTaskIL scripted_default 0 [batch_of_3; batch_of_5]
      (world_before GCTaskILEWCTrainer.initTrainingStates) = (Ok tt, w')
    ∧ ext w' = state_after_5
    ∧ history_fits (model_params (ext w')) (training_states w')
    ∧ ∃ v, loss_reg_of GCTaskIL scripted_default (model_params (ext w'))
             (training_states w') = Ok v.
Proof.
  exact (completed_pass_keeps_the_history_fit GCTaskIL scripted_default 0
           [batch_of_3; batch_of_5]
           (world_before GCTaskILEWCTrainer.initTrainingStates)
           model_before seen_3_5 state_after_5
           (scripted_pass_3_5 _ _) scripted_pass_3_5_well_formed
           model_shapes_after_5 no_history_fits_after_5).
Defined.

Lemma pass_without_batches_witness :
  ∃ P F,
    processAfterTraining_of GCTaskIL scripted_default 0 [] (world_before two_tasks)
    = (Ok tt,
       {| ext := {| model_params := model_before; autograd := [] |};
          training_states := with_entry two_tasks P F |})
    ∧ P !! "w" = Some [frac 0 1; frac 0 1]
    ∧ P !! "w" ≠ Some (data w_before).
Proof.
  destruct (pass_without_batches_snapshots_zeros GCTaskIL scripted_default 0 []
              (world_before two_tasks) model_before
              {| model_params := model_before; autograd := [] |}
              (scripted_pass_empty _ _) scripted_pass_empty_well_formed)
    as (P & F & Hrun & HP).
  exists P, F. split; [exact Hrun|].
  pose proof (HP "w" w_before ltac:(left)) as Hw.
  split; [exact Hw|]. rewrite Hw.
  apply (bool_decide_eq_false_1 _). vm_compute. reflexivity.
Defined.

Lemma fisher_pass_ignores_the_history_witness :
  (∃ e t',
     GCTaskILEWCTrainer.processAfterTraining
       (task_incremental scripted_default (scripted_forward _)) 0
       [batch_of_3; batch_of_5]
       {| ext := {| model_params := model_before; autograd := [] |};
          training_states := GCTaskILEWCTrainer.initTrainingStates |}
     = (Raise e, {| ext := t';
                    training_states := GCTaskILEWCTrainer.initTrainingStates |})
     ∧ GCTaskILEWCTrainer.processAfterTraining
         (task_incremental scripted_default (scripted_forward _)) 0
         [batch_of_3; batch_of_5]
         {| ext := {| model_params := model_before; autograd := [] |};
            training_states := two_tasks |}
       = (Raise e, {| ext := t'; training_states := two_tasks |}))
  ∨ (∃ P F t',
       GCTaskILEWCTrainer.processAfterTraining
         (task_incremental scripted_default (scripted_forward _)) 0
         [batch_of_3; batch_of_5]
         {| ext := {| model_params := model_before; autograd := [] |};
            training_states := GCTaskILEWCTrainer.initTrainingStates |}
       = (Ok tt, {| ext := t';
                    training_states :=
                      with_entry GCTaskILEWCTrainer.initTrainingStates P F |})
       ∧ GCTaskILEWCTrainer.processAfterTraining
           (task_incremental scripted_default (scripted_forward _)) 0
           [batch_of_3; batch_of_5]
           {| ext := {| model_params := model_before; autograd := [] |};
              training_states := two_tasks |}
         = (Ok tt, {| ext := t'; training_states := with_entry two_tasks P F |})).
Proof.
  apply (fisher_pass_ignores_the_history scripted_default (scripted_forward _) 0
           [batch_of_3; batch_of_5]
           {| model_params := model_before; autograd := [] |}
           GCTaskILEWCTrainer.initTrainingStates two_tasks).
  - reflexivity.
  - reflexivity.
Defined.

(** ** A term of the penalty at the snapshot, in binary32 *)

Lemma float32_sub_self (p : Float32.float32) :
  Float32.is_finite p = true → Float32.sub p p = Float32.zero.
Proof.
  intros Hp. destruct p as [[]|s| |s m e]; try done.
  unfold Float32.sub. cbn [SpecFloat.SFsub]. by rewrite Z.sub_diag.
Qed.

(** X3. When a parameter holds exactly the value of the snapshot, a finite
    one, the term that lines 56-57 compute for it is a zero as long as the
    product of [lamb] and the Fisher value is finite; when that product
    overflows, or the Fisher value is an infinity or NaN, the term is NaN
    ([inf * 0]) although nothing has drifted. *)
Theorem no_drift_no_penalty_term (lamb fisher p : Float32.float32) :
  Float32.is_finite p = true →
  (Float32.is_finite (Float32.mul lamb fisher) = true →
   Float32.is_zero (Float32.penalty_term lamb fisher p p) = true)
  ∧ (Float32.is_finite (Float32.mul lamb fisher) = false →
     Float32.penalty_term lamb fisher p p = Float32.nan).
Proof.
  intros Hp. unfold Float32.penalty_term. cbv zeta.
  rewrite (float32_sub_self p Hp).
  destruct (Float32.mul lamb fisher) as [s|s| |s m e]; split; try done.
Qed.

Lemma no_drift_no_penalty_term_witness :
  Float32.is_zero
    (Float32.penalty_term default_lamb one_half seven_tenths seven_tenths)
  = true
  ∧ Float32.penalty_term two_to_100 two_to_100 seven_tenths seven_tenths = Float32.nan.
Proof.
  split.
  - apply (no_drift_no_penalty_term default_lamb one_half seven_tenths);
      vm_compute; reflexivity.
  - apply (no_drift_no_penalty_term two_to_100 two_to_100 seven_tenths);
      vm_compute; reflexivity.
Defined.
